(** * manifest_reader: the manifest model and its file-list resolution

    A shallow embedding of [manifest_reader.py]: the classes [Manifest],
    [FileList] and [FolderStructure], over a model of the Python values a
    decoded YAML document is made of and of the [pathlib] joins the module
    performs.  Python exceptions are values of [pyerr]; every operation
    that can raise returns a [result]. *)

From Stdlib Require Import String Ascii List Bool Arith Lia ZArith.
Import ListNotations.
Local Open Scope string_scope.
Local Open Scope list_scope.

Set Implicit Arguments.

(** ** Python values *)

(** The values a decoded manifest document holds.  A mapping keeps its
    keys in insertion order, so it is an association list; its keys are
    strings. *)
#[warnings="-register-all"] Inductive pyval : Type :=
| PNone : pyval
| PBool : bool -> pyval
| PInt : Z -> pyval
| PStr : string -> pyval
| PList : list pyval -> pyval
| PDict : list (string * pyval) -> pyval.

Definition pydict : Type := list (string * pyval).

(** The exceptions the module can raise; [KeyError] carries the key. *)
Inductive pyerr : Type :=
| KeyError : pyval -> pyerr
| TypeError : pyerr
| AttributeError : pyerr.

(** The name of the exception's class. *)
Definition exception_class (e : pyerr) : string :=
  match e with
  | KeyError _ => "KeyError"
  | TypeError => "TypeError"
  | AttributeError => "AttributeError"
  end.

Inductive result (A : Type) : Type :=
| Ok : A -> result A
| Err : pyerr -> result A.

Arguments Ok {A} _.
Arguments Err {A} _.

Definition bind {A B : Type} (c : result A) (k : A -> result B) : result B :=
  match c with
  | Ok a => k a
  | Err e => Err e
  end.

Declare Scope py_scope.
Delimit Scope py_scope with py.
Notation "x <- c ;; k" := (bind c (fun x => k))
  (at level 61, c at next level, right associativity) : py_scope.
Local Open Scope py_scope.

(** ** Dictionaries *)

Section Dict.
Variable V : Type.

(** [d[k]] found or not: the first binding of [k]. *)
Fixpoint dict_get (k : string) (d : list (string * V)) : option V :=
  match d with
  | [] => None
  | (k', v) :: rest => if String.eqb k k' then Some v else dict_get k rest
  end.

(** [k in d]. *)
Definition dict_mem (k : string) (d : list (string * V)) : bool :=
  match dict_get k d with
  | Some _ => true
  | None => false
  end.

(** [d.keys()]: every key once, in insertion order. *)
Fixpoint dict_keys (d : list (string * V)) : list string :=
  match d with
  | [] => []
  | (k, _) :: rest =>
      k :: filter (fun k' => negb (String.eqb k' k)) (dict_keys rest)
  end.
End Dict.

(** [d[k]] on a dictionary: the value, or [KeyError(k)]. *)
Definition dict_subscript (d : pydict) (k : string) : result pyval :=
  match dict_get k d with
  | Some v => Ok v
  | None => Err (KeyError (PStr k))
  end.

(** [v.keys()]: only a mapping has the method. *)
Definition py_keys (v : pyval) : result (list string) :=
  match v with
  | PDict d => Ok (dict_keys d)
  | _ => Err AttributeError
  end.

(** [v[k]] for a string [k]: a mapping is looked up; a sequence wants an
    integer index; nothing else is subscriptable. *)
Definition py_subscript (v : pyval) (k : string) : result pyval :=
  match v with
  | PDict d => dict_subscript d k
  | _ => Err TypeError
  end.

(** [s == v] for a string [s]. *)
Definition py_str_eq (s : string) (v : pyval) : bool :=
  match v with
  | PStr t => String.eqb s t
  | _ => false
  end.

(** [needle in hay] on strings: the substring test. *)
Fixpoint str_contains (needle hay : string) : bool :=
  String.prefix needle hay
  || match hay with
     | EmptyString => false
     | String _ hay' => str_contains needle hay'
     end.

(** [s in v] for a string [s]: membership in a list, key membership in a
    mapping, substring of a string; the other values are not containers. *)
Definition py_contains (s : string) (v : pyval) : result bool :=
  match v with
  | PList l => Ok (existsb (py_str_eq s) l)
  | PDict d => Ok (dict_mem s d)
  | PStr h => Ok (str_contains s h)
  | _ => Err TypeError
  end.

(** The characters of a string, each as a one-character string. *)
Fixpoint str_chars (s : string) : list string :=
  match s with
  | EmptyString => []
  | String c s' => String c EmptyString :: str_chars s'
  end.

(** [iter(v)]: the elements a [for] loop visits. *)
Definition py_iter (v : pyval) : result (list pyval) :=
  match v with
  | PList l => Ok l
  | PDict d => Ok (map PStr (dict_keys d))
  | PStr s => Ok (map PStr (str_chars s))
  | _ => Err TypeError
  end.

(** Mapping a fallible function over a list, stopping at the first
    exception (a list comprehension). *)
Fixpoint mapM {A B : Type} (f : A -> result B) (l : list A) : result (list B) :=
  match l with
  | [] => Ok []
  | a :: rest =>
      b <- f a ;;
      bs <- mapM f rest ;;
      Ok (b :: bs)
  end.

(** ** Paths ([pathlib.PurePosixPath]) *)

(** A path is its root (empty, ["/"] or ["//"]) and its components. *)
Record Path : Type := mkPath {
  anchor : string;
  parts : list string
}.

Fixpoint split_on (sep : ascii) (s : string) : list string :=
  match s with
  | EmptyString => [EmptyString]
  | String c s' =>
      if Ascii.eqb c sep then EmptyString :: split_on sep s'
      else match split_on sep s' with
           | [] => [String c EmptyString]
           | h :: t => String c h :: t
           end
  end.

Definition slash : ascii := "/"%char.

(** [posixpath.splitroot]: the root and what follows it. *)
Definition splitroot (s : string) : string * string :=
  match s with
  | String c1 r1 =>
      if Ascii.eqb c1 slash then
        match r1 with
        | String c2 r2 =>
            if Ascii.eqb c2 slash then
              match r2 with
              | String c3 _ =>
                  if Ascii.eqb c3 slash then ("/", r1) else ("//", r2)
              | EmptyString => ("//", r2)
              end
            else ("/", r1)
        | EmptyString => ("/", r1)
        end
      else (EmptyString, s)
  | EmptyString => (EmptyString, s)
  end.

(** Empty components and ["."] are dropped when a path is parsed. *)
Definition keep_part (x : string) : bool :=
  negb (String.eqb x EmptyString) && negb (String.eqb x ".").

(** [Path(s)]. *)
Definition parse_path (s : string) : Path :=
  let (root, rel) := splitroot s in
  mkPath root (filter keep_part (split_on slash rel)).

(** [p / s] for a string [s]: an absolute [s] replaces [p]. *)
Definition joinpath (p : Path) (s : string) : Path :=
  let q := parse_path s in
  if String.eqb (anchor q) EmptyString
  then mkPath (anchor p) (parts p ++ parts q)
  else q.

(** [p / v]: only a string can be joined to a path. *)
Definition truediv (p : Path) (v : pyval) : result Path :=
  match v with
  | PStr s => Ok (joinpath p s)
  | _ => Err TypeError
  end.

(** ** FolderStructure *)

Module FolderStructure.

Record t : Type := mk {
  name : pyval;
  structure : list (string * string)
}.

Definition folder_structures : list (string * list (string * string)) :=
  [ ("src_dsn",
     [("dsn", "src/dsn"); ("tb", "src/tb"); ("self", EmptyString)]);
    ("hdl_sim",
     [("dsn", ".."); ("tb", "."); ("self", EmptyString)]) ].

(** [v in folder_structures]: a list or a mapping is unhashable; a value
    that is not a string is no key of the table. *)
Definition is_known (v : pyval) : result bool :=
  match v with
  | PStr s => Ok (dict_mem s folder_structures)
  | PList _ | PDict _ => Err TypeError
  | _ => Ok false
  end.

(** [folder_structures[v]]. *)
Definition lookup (v : pyval) : result (list (string * string)) :=
  match v with
  | PStr s =>
      match dict_get s folder_structures with
      | Some st => Ok st
      | None => Err (KeyError v)
      end
  | PList _ | PDict _ => Err TypeError
  | _ => Err (KeyError v)
  end.

(** The value the first statement of [__init__] assigns to [self.name]. *)
Definition init_name (folder_structure : pyval) : result pyval :=
  known <- is_known folder_structure ;;
  Ok (if known then folder_structure else PNone).

(** [FolderStructure(folder_structure)]. *)
Definition init (folder_structure : pyval) : result t :=
  nm <- init_name folder_structure ;;
  st <- lookup folder_structure ;;
  Ok (mk nm st).

(** [self.structure[kind]]. *)
Definition structure_subscript (fs : t) (kind : string) : result string :=
  match dict_get kind (structure fs) with
  | Some sub => Ok sub
  | None => Err (KeyError (PStr kind))
  end.

End FolderStructure.

(** ** FileList *)

Module FileList.

Record t : Type := mk {
  kind : string;
  files : pyval;
  standard : pyval
}.

(** [FileList(kind, files, standard)] stores its arguments. *)
Definition init (kind : string) (files standard : pyval) : t :=
  mk kind files standard.

Definition kinds : list (string * string) :=
  [("dsn", "_dsn"); ("tb", "_tb"); ("self", "_lib"); ("none", EmptyString)].

Definition get_lib_name (self : t) (blk_name : string) : result string :=
  match dict_get (kind self) kinds with
  | Some suffix => Ok (blk_name ++ suffix)%string
  | None => Err (KeyError (PStr (kind self)))
  end.

End FileList.

(** ** Manifest *)

Definition SIMULATORS : list string :=
  ["msim"; "msim_free"; "ghdl"; "qsim"; "xsim"].
Definition DEFAULT_SIMULATORS : pyval := PList [PStr "msim"; PStr "msim_free"].
Definition DEFAULT_MAX_THREADS : pyval := PInt 5.

Module Manifest.

Record t : Type := mk {
  root_dir : Path;
  name : pyval;
  folder_structure : option FolderStructure.t;
  file_lists : list FileList.t;
  blocks : pyval;
  constraints : pyval;
  ips : pyval;
  supported_simulators : pyval;
  max_threads : pyval
}.

(** [d[k] if k in d else default]. *)
Definition get_or (d : pydict) (k : string) (default : pyval) : pyval :=
  match dict_get k d with
  | Some v => v
  | None => default
  end.

(** The standard one pass of the loop over the kinds settles on. *)
Definition kind_standard (default_standard standards : pyval)
    (kind : string) : result pyval :=
  if String.eqb kind "tb" then Ok (PStr "VHDL 2008")
  else
    match standards with
    | PNone => Ok default_standard
    | _ =>
        present <- py_contains kind standards ;;
        if present then py_subscript standards kind
        else Ok default_standard
    end.

(** The loop [for kind in manifest_dict["files"].keys()], appending to
    [self.file_lists]. *)
Fixpoint build_file_lists (files_v default_standard standards : pyval)
    (kinds : list string) (acc : list FileList.t)
    : result (list FileList.t) :=
  match kinds with
  | [] => Ok acc
  | kind :: rest =>
      files <- py_subscript files_v kind ;;
      standard <- kind_standard default_standard standards kind ;;
      build_file_lists files_v default_standard standards rest
        (acc ++ [FileList.init kind files standard])
  end.

(** [Manifest(manifest_dict, root_dir)]. *)
Definition init (manifest_dict : pydict) (root : Path) : result t :=
  nm <- dict_subscript manifest_dict "name" ;;
  fs <- match dict_get "folder_structure" manifest_dict with
        | Some v => s <- FolderStructure.init v ;; Ok (Some s)
        | None => Ok None
        end ;;
  let default_standard := get_or manifest_dict "standard" (PStr "VHDL") in
  let standards := get_or manifest_dict "standards" PNone in
  files_v <- dict_subscript manifest_dict "files" ;;
  kinds <- py_keys files_v ;;
  fls <- build_file_lists files_v default_standard standards kinds [] ;;
  Ok (mk root nm fs fls
        (get_or manifest_dict "blocks" PNone)
        (get_or manifest_dict "constraints" PNone)
        (get_or manifest_dict "ips" PNone)
        (get_or manifest_dict "supported_simulators" DEFAULT_SIMULATORS)
        (get_or manifest_dict "max_threads" DEFAULT_MAX_THREADS)).

Definition get_source_dir (self : t) (kind : string) : result Path :=
  match folder_structure self with
  | None => Ok (root_dir self)
  | Some fs =>
      sub <- FolderStructure.structure_subscript fs kind ;;
      Ok (joinpath (root_dir self) sub)
  end.

Definition preference_order : list string :=
  ["ghdl"; "qsim"; "msim"; "msim_free"; "xsim"].

(** The loop of [get_preferred_simulator]; falling off its end returns
    [None]. *)
Fixpoint first_supported (order : list string) (supported : pyval)
    : result (option string) :=
  match order with
  | [] => Ok None
  | simulator :: rest =>
      present <- py_contains simulator supported ;;
      if present then Ok (Some simulator)
      else first_supported rest supported
  end.

Definition get_preferred_simulator (self : t) : result (option string) :=
  first_supported preference_order (supported_simulators self).

Definition get_max_threads (self : t) : pyval := max_threads self.

(** One pass of the loop of [get_all_files]: the paths of one list. *)
Definition file_list_paths (self : t) (file_list : FileList.t)
    : result (list Path) :=
  let files := FileList.files file_list in
  dir <- get_source_dir self (FileList.kind file_list) ;;
  elems <- py_iter files ;;
  mapM (truediv dir) elems.

Fixpoint extend_all (self : t) (fls : list FileList.t) (ret : list Path)
    : result (list Path) :=
  match fls with
  | [] => Ok ret
  | file_list :: rest =>
      paths <- file_list_paths self file_list ;;
      extend_all self rest (ret ++ paths)
  end.

Definition get_all_files (self : t) : result (list Path) :=
  extend_all self (file_lists self) [].

End Manifest.

(** ** The standard precedence, in the specification's words *)

(** The manifest's declared default [standard], or the global default. *)
Definition declared_standard (manifest_dict : pydict) : pyval :=
  match dict_get "standard" manifest_dict with
  | Some v => v
  | None => PStr "VHDL"
  end.

(** For a kind other than the testbench kind: the entry of the
    [standards] map when it has one, else the declared default. *)
Definition spec_standard (manifest_dict : pydict) (kind : string) : pyval :=
  match dict_get "standards" manifest_dict with
  | Some (PDict overrides) =>
      match dict_get kind overrides with
      | Some v => v
      | None => declared_standard manifest_dict
      end
  | _ => declared_standard manifest_dict
  end.

(** The number of files of a list held as a sequence. *)
Definition file_count (fl : FileList.t) : nat :=
  match FileList.files fl with
  | PList l => length l
  | _ => 0
  end.

(** ** Sample documents *)

Definition ex_root : Path := parse_path "/work/blk".

(** Default standard "VHDL", an override for [dsn], kinds [dsn] and [tb]. *)
Definition ex_doc : pydict :=
  [ ("name", PStr "blk");
    ("folder_structure", PStr "src_dsn");
    ("standard", PStr "VHDL");
    ("standards", PDict [("dsn", PStr "VHDL 2008")]);
    ("files", PDict [("dsn", PList [PStr "a.vhd"; PStr "b.vhd"]);
                     ("tb", PList [PStr "t.vhd"])]) ].

(** A testbench kind with an override that asks for plain "VHDL". *)
Definition ex_doc_tb_override : pydict :=
  [ ("name", PStr "blk");
    ("standard", PStr "VHDL");
    ("standards", PDict [("tb", PStr "VHDL")]);
    ("files", PDict [("tb", PList [PStr "t.vhd"]);
                     ("self", PList [PStr "pkg.vhd"])]) ].

(** The same file name twice in one list and once more in another. *)
Definition ex_doc_repeat : pydict :=
  [ ("name", PStr "blk");
    ("folder_structure", PStr "src_dsn");
    ("files", PDict [("dsn", PList [PStr "a.vhd"; PStr "a.vhd"]);
                     ("tb", PList []);
                     ("self", PList [PStr "a.vhd"])]);
    ("supported_simulators", PList [PStr "xsim"; PStr "msim"]) ].

Definition ex_manifest_repeat : Manifest.t :=
  Manifest.mk ex_root (PStr "blk")
    (Some (FolderStructure.mk (PStr "src_dsn")
             [("dsn", "src/dsn"); ("tb", "src/tb"); ("self", EmptyString)]))
    [ FileList.mk "dsn" (PList [PStr "a.vhd"; PStr "a.vhd"]) (PStr "VHDL");
      FileList.mk "tb" (PList []) (PStr "VHDL 2008");
      FileList.mk "self" (PList [PStr "a.vhd"]) (PStr "VHDL") ]
    PNone PNone PNone (PList [PStr "xsim"; PStr "msim"]) (PInt 5).

(** The source directory of a kind, the root where it does not resolve. *)
Definition source_dir_or_root (m : Manifest.t) (kind : string) : Path :=
  match Manifest.get_source_dir m kind with
  | Ok p => p
  | Err _ => Manifest.root_dir m
  end.

(** The strings among the elements of a sequence. *)
Definition str_names (v : pyval) : list string :=
  match v with
  | PList l =>
      flat_map (fun x => match x with PStr s => [s] | _ => [] end) l
  | _ => []
  end.

(** The kind "none" declared under a folder structure. *)
Definition ex_doc_none_kind : pydict :=
  [ ("name", PStr "blk");
    ("folder_structure", PStr "src_dsn");
    ("files", PDict [("none", PList [PStr "pkg.vhd"])]) ].

Definition ex_manifest_none_kind : Manifest.t :=
  Manifest.mk ex_root (PStr "blk")
    (Some (FolderStructure.mk (PStr "src_dsn")
             [("dsn", "src/dsn"); ("tb", "src/tb"); ("self", EmptyString)]))
    [ FileList.mk "none" (PList [PStr "pkg.vhd"]) (PStr "VHDL") ]
    PNone PNone PNone DEFAULT_SIMULATORS DEFAULT_MAX_THREADS.

(** A kind under [files] with a null value next to a populated one. *)
Definition ex_doc_null : pydict :=
  [ ("name", PStr "blk");
    ("files", PDict [("dsn", PNone); ("tb", PList [PStr "t.vhd"])]) ].

Definition ex_manifest_null : Manifest.t :=
  Manifest.mk ex_root (PStr "blk") None
    [ FileList.mk "dsn" PNone (PStr "VHDL");
      FileList.mk "tb" (PList [PStr "t.vhd"]) (PStr "VHDL 2008") ]
    PNone PNone PNone DEFAULT_SIMULATORS DEFAULT_MAX_THREADS.

(** A kind outside the table [FileList.kinds]. *)
Definition ex_doc_sim_kind : pydict :=
  [ ("name", PStr "blk");
    ("standards", PDict [("sim", PStr "VHDL 2008")]);
    ("files", PDict [("sim", PList [PStr "model.vhd"]);
                     ("dsn", PList [PStr "a.vhd"])]) ].

(** The document declares no folder structure, or one of the table. *)
Definition known_or_absent_structure (manifest_dict : pydict) : bool :=
  match dict_get "folder_structure" manifest_dict with
  | None => true
  | Some (PStr s) => dict_mem s FolderStructure.folder_structures
  | Some _ => false
  end.

(** The document declares no [standards], or a mapping (or null). *)
Definition standards_is_map (manifest_dict : pydict) : bool :=
  match dict_get "standards" manifest_dict with
  | None | Some PNone | Some (PDict _) => true
  | Some _ => false
  end.

(** One [FileList] as the loop builds it for the document. *)
Definition built_for (files_v default_standard standards : pyval)
    (fl : FileList.t) : Prop :=
  py_subscript files_v (FileList.kind fl) = Ok (FileList.files fl) /\
  Manifest.kind_standard default_standard standards (FileList.kind fl)
    = Ok (FileList.standard fl).

(** ** More of [dict] *)

Section DictOps.
Variable V : Type.

(** [d.items()]: every key once with its value, in insertion order. *)
Fixpoint dict_items (d : list (string * V)) : list (string * V) :=
  match d with
  | [] => []
  | (k, v) :: rest =>
      (k, v) :: filter (fun kv => negb (String.eqb (fst kv) k))
                       (dict_items rest)
  end.

(** [d[k] = v]: a present key keeps its place, a new key goes last. *)
Fixpoint dict_set (k : string) (v : V) (d : list (string * V))
    : list (string * V) :=
  match d with
  | [] => [(k, v)]
  | (k', v') :: rest =>
      if String.eqb k k' then (k, v) :: rest
      else (k', v') :: dict_set k v rest
  end.
End DictOps.

(** ** More of [pathlib] *)

(** [p / q] for a path [q]. *)
Definition path_join (p q : Path) : Path :=
  if String.eqb (anchor q) EmptyString
  then mkPath (anchor p) (parts p ++ parts q)
  else q.

(** [Path(v)]: only a string names a path. *)
Definition to_path (v : pyval) : result Path :=
  match v with
  | PStr s => Ok (parse_path s)
  | _ => Err TypeError
  end.

(** [str(p)]: the root and the components separated by slashes; the empty
    path prints as a dot. *)
Definition path_str (p : Path) : string :=
  match parts p with
  | [] => if String.eqb (anchor p) EmptyString then "." else anchor p
  | _ => (anchor p ++ String.concat "/" (parts p))%string
  end.

(** [p.name]: the last component, empty when there is none. *)
Definition path_name (p : Path) : string := last (parts p) EmptyString.

(** [name.rfind('.')] *)
Fixpoint rfind_dot (name : string) : option nat :=
  match name with
  | EmptyString => None
  | String c rest =>
      match rfind_dot rest with
      | Some i => Some (S i)
      | None => if Ascii.eqb c "."%char then Some 0 else None
      end
  end.

(** [p.suffix]: the name from its last dot on, when that dot is neither
    the first nor the last character of the name. *)
Definition path_suffix (p : Path) : string :=
  let name := path_name p in
  match rfind_dot name with
  | Some i =>
      if Nat.ltb 0 i && Nat.ltb i (String.length name - 1)
      then substring i (String.length name - i) name
      else EmptyString
  | None => EmptyString
  end.

(** [x in (s1, s2, ...)] for strings. *)
Definition str_in (x : string) (l : list string) : bool :=
  existsb (String.eqb x) l.

(** ** vunit_helper *)

Module VunitHelper.

Definition to_vunit_vhdl_standard (standard : pyval) : string :=
  if py_str_eq "VHDL" standard then "93"
  else if py_str_eq "VHDL 2008" standard then "2008"
  else "UNSPECIFIED_STANDARD".

(** The test at the head of [add_files_from] that makes it return
    without adding any file of the block: a simulator is selected and is
    not among the supported ones. *)
Definition skips_block (simulator : option string) (manifest : Manifest.t)
    : result bool :=
  match simulator with
  | None => Ok false
  | Some s =>
      present <- py_contains s (Manifest.supported_simulators manifest) ;;
      Ok (negb present)
  end.

Section Configs.
Variable V : Type.

(** [itertools.product] of the pools: the last pool varies fastest. *)
Fixpoint product (pools : list (list V)) : list (list V) :=
  match pools with
  | [] => [[]]
  | pool :: rest =>
      flat_map (fun x => map (cons x) (product rest)) pool
  end.

(** The loop [for i, key in enumerate(test_cfg_options)] that labels one
    permutation; [None] stands for the [IndexError] of [permutation[i]]. *)
Fixpoint label_from (i : nat) (keys : list string) (permutation : list V)
    (test_cfg : list (string * V)) : option (list (string * V)) :=
  match keys with
  | [] => Some test_cfg
  | key :: rest =>
      match nth_error permutation i with
      | Some v => label_from (S i) rest permutation (dict_set key v test_cfg)
      | None => None
      end
  end.

(** The loop [for permutation in permutations], appending to [configs]. *)
Fixpoint collect_configs (keys : list string) (permutations : list (list V))
    (configs : list (list (string * V)))
    : option (list (list (string * V))) :=
  match permutations with
  | [] => Some configs
  | permutation :: rest =>
      match label_from 0 keys permutation [] with
      | Some test_cfg => collect_configs keys rest (configs ++ [test_cfg])
      | None => None
      end
  end.

Definition gen_configs (test_cfg_options : list (string * list V))
    : option (list (list (string * V))) :=
  let permutations := product (map snd (dict_items test_cfg_options)) in
  collect_configs (dict_keys test_cfg_options) permutations [].

(** [str(v)] and [format(v)] of a configuration value. *)
Variable str : V -> string.

(** The loop of [add_config] that builds [config_name]. *)
Fixpoint config_name_from (i : Z) (len : Z) (items : list (string * V))
    (config_name : string) : string :=
  match items with
  | [] => config_name
  | (k, v) :: rest =>
      let config_name := (config_name ++ (k ++ "=" ++ str v))%string in
      let config_name :=
        if Z.eqb i (len - 1) then config_name
        else (config_name ++ ",")%string in
      config_name_from (i + 1) len rest config_name
  end.

(** The two arguments [add_config] passes to [item.add_config]: the name
    and the generics. *)
Definition add_config (config : list (string * V))
    : string * list (string * string) :=
  let items := dict_items config in
  let config_name :=
    config_name_from 0 (Z.of_nat (length items)) items EmptyString in
  let encoded_test_cfg :=
    [("test_cfg",
      String.concat ", "
        (map (fun kv => (fst kv ++ ":" ++ str (snd kv))%string) items))] in
  (config_name, encoded_test_cfg).

End Configs.

End VunitHelper.

(** ** vivado_util *)

Module VivadoUtil.

Definition get_build_standard (path : Path) (file_list : FileList.t)
    : pyval :=
  if str_in (path_suffix path) [".svh"; ".vh"] then PStr "Verilog Header"
  else if str_in (path_suffix path) [".v"; ".sv"] then PStr "Verilog"
  else FileList.standard file_list.

Definition get_ip_standard (path : Path) (file_list : FileList.t) : pyval :=
  if str_in (path_suffix path) [".svh"; ".vh"] then PStr "verilogSource"
  else if str_in (path_suffix path) [".v"; ".sv"] then PStr "verilogSource"
  else if py_str_eq "VHDL" (FileList.standard file_list)
       then PStr "vhdlSource"
       else PStr "vhdlSource-2008".

(** ["{" + standard + "}"]: only a string can be concatenated. *)
Definition braces (standard : pyval) : result string :=
  match standard with
  | PStr s => Ok ("{" ++ s ++ "}")%string
  | _ => Err TypeError
  end.

Definition get_standard (path : Path) (file_list : FileList.t)
    (for_ip : bool) : result string :=
  let standard :=
    if for_ip then get_ip_standard path file_list
    else get_build_standard path file_list in
  braces standard.

End VivadoUtil.

(** ** vsg_util *)

Module VsgUtil.

Section Files.
(** Whether the pattern, made a regular expression, matches the string. *)
Variable pattern_matches : string -> string -> bool.

(** The block [if exclude_patterns is not None] for one file. *)
Definition is_excluded (exclude_patterns : option (list string))
    (full_file_path : Path) : bool :=
  match exclude_patterns with
  | None => false
  | Some patterns =>
      existsb (fun pattern =>
                 pattern_matches pattern (path_str full_file_path))
              patterns
  end.

(** One pass of the loop [for file in file_list.files]. *)
Definition visit_file (manifest : Manifest.t) (file_list : FileList.t)
    (exclude_patterns : option (list string)) (file : pyval)
    (vsg_files : list string) : result (list string) :=
  file <- to_path file ;;
  dir <- Manifest.get_source_dir manifest (FileList.kind file_list) ;;
  let full_file_path := path_join dir file in
  if is_excluded exclude_patterns full_file_path then Ok vsg_files
  else if str_in (path_suffix file) [".vhd"]
       then Ok (vsg_files ++ [path_str full_file_path])
       else Ok vsg_files.

Fixpoint visit_files (manifest : Manifest.t) (file_list : FileList.t)
    (exclude_patterns : option (list string)) (files : list pyval)
    (vsg_files : list string) : result (list string) :=
  match files with
  | [] => Ok vsg_files
  | file :: rest =>
      vsg_files <- visit_file manifest file_list exclude_patterns file
                     vsg_files ;;
      visit_files manifest file_list exclude_patterns rest vsg_files
  end.

(** One pass of the loop [for file_list in manifest.file_lists]. *)
Definition visit_file_list (manifest : Manifest.t)
    (exclude_patterns : option (list string)) (file_list : FileList.t)
    (vsg_files : list string) : result (list string) :=
  match FileList.files file_list with
  | PNone => Ok vsg_files
  | files =>
      elems <- py_iter files ;;
      visit_files manifest file_list exclude_patterns elems vsg_files
  end.

Fixpoint visit_file_lists (manifest : Manifest.t)
    (exclude_patterns : option (list string)) (fls : list FileList.t)
    (vsg_files : list string) : result (list string) :=
  match fls with
  | [] => Ok vsg_files
  | file_list :: rest =>
      vsg_files <- visit_file_list manifest exclude_patterns file_list
                     vsg_files ;;
      visit_file_lists manifest exclude_patterns rest vsg_files
  end.

(** [get_vsg_files], given the manifests read for the block directories. *)
Fixpoint get_vsg_files_from (manifests : list Manifest.t)
    (exclude_patterns : option (list string)) (vsg_files : list string)
    : result (list string) :=
  match manifests with
  | [] => Ok vsg_files
  | manifest :: rest =>
      vsg_files <- visit_file_lists manifest exclude_patterns
                     (Manifest.file_lists manifest) vsg_files ;;
      get_vsg_files_from rest exclude_patterns vsg_files
  end.

Definition get_vsg_files (manifests : list Manifest.t)
    (exclude_patterns : option (list string)) : result (list string) :=
  get_vsg_files_from manifests exclude_patterns [].

End Files.

End VsgUtil.

(** ** vhdl_ls_util *)

Module VhdlLsUtil.

(** [v[k] = x]: only a mapping takes a string key. *)
Definition py_setitem (v : pyval) (k : string) (x : pyval) : result pyval :=
  match v with
  | PDict d => Ok (PDict (dict_set k x d))
  | _ => Err TypeError
  end.

(** The loop [for lib, files in libs.items()] over [ret["libraries"]]. *)
Fixpoint fill_libraries (items : list (string * pyval)) (libraries : pydict)
    : result pydict :=
  match items with
  | [] => Ok libraries
  | (lib, files) :: rest =>
      let libraries := dict_set lib (PDict []) libraries in
      entry <- dict_subscript libraries lib ;;
      entry <- py_setitem entry "files" files ;;
      fill_libraries rest (dict_set lib entry libraries)
  end.

Definition to_vhdl_ls_dict (libs : pydict) : result pydict :=
  libraries <- fill_libraries (dict_items libs) [] ;;
  Ok [("libraries", PDict libraries)].

End VhdlLsUtil.

(** What one file name adds to the list of [get_vsg_files]. *)
Definition vsg_entry (pattern_matches : string -> string -> bool)
    (exclude_patterns : option (list string)) (dir : Path) (s : string)
    : list string :=
  let full_file_path := joinpath dir s in
  if VsgUtil.is_excluded pattern_matches exclude_patterns full_file_path
  then []
  else if str_in (path_suffix (parse_path s)) [".vhd"]
       then [path_str full_file_path]
       else [].

(** What one FileList adds to the list of [get_vsg_files], given its
    source directory and its file names. *)
Definition vsg_entries (pattern_matches : string -> string -> bool)
    (exclude_patterns : option (list string)) (dir_of : string -> Path)
    (names_of : FileList.t -> list string) (fl : FileList.t)
    : list string :=
  flat_map (vsg_entry pattern_matches exclude_patterns
              (dir_of (FileList.kind fl)))
           (names_of fl).

(** The entry [to_vhdl_ls_dict] writes for the files of one library. *)
Definition files_entry (files : pyval) : pyval := PDict [("files", files)].

(** ** More sample documents *)

(** [files] left empty in the document, hence null. *)
Definition ex_doc_files_null : pydict :=
  [ ("name", PStr "blk"); ("files", PNone) ].

(** [supported_simulators] written as one string instead of a list. *)
Definition ex_manifest_sim_string : Manifest.t :=
  Manifest.mk ex_root (PStr "blk") None []
    PNone PNone PNone (PStr "msim_free") DEFAULT_MAX_THREADS.


(** The other folder structure; one kind is left null. *)
Definition ex_doc_hdl_sim : pydict :=
  [ ("name", PStr "blk");
    ("folder_structure", PStr "hdl_sim");
    ("files", PDict [("dsn", PList [PStr "core.vhd"; PStr "regs.sv"]);
                     ("tb", PList [PStr "core_tb.vhd"]);
                     ("self", PNone)]) ].

Definition ex_manifest_hdl_sim : Manifest.t :=
  Manifest.mk ex_root (PStr "blk")
    (Some (FolderStructure.mk (PStr "hdl_sim")
             [("dsn", ".."); ("tb", "."); ("self", EmptyString)]))
    [ FileList.mk "dsn" (PList [PStr "core.vhd"; PStr "regs.sv"])
        (PStr "VHDL");
      FileList.mk "tb" (PList [PStr "core_tb.vhd"]) (PStr "VHDL 2008");
      FileList.mk "self" PNone (PStr "VHDL") ]
    PNone PNone PNone DEFAULT_SIMULATORS DEFAULT_MAX_THREADS.

(** A [standards] entry decoded as a number, with only a testbench kind. *)
Definition ex_doc_tb_only : pydict :=
  [ ("name", PStr "blk");
    ("standards", PInt 2008);
    ("files", PDict [("tb", PList [PStr "t.vhd"])]) ].

(** The same with a design kind as well. *)
Definition ex_doc_int_standards : pydict :=
  [ ("name", PStr "blk");
    ("standards", PInt 2008);
    ("files", PDict [("tb", PList [PStr "t.vhd"]);
                     ("dsn", PList [PStr "a.vhd"])]) ].

(** A null list under a kind the folder structure has no entry for. *)
Definition ex_manifest_vsg : Manifest.t :=
  Manifest.mk ex_root (PStr "blk")
    (Some (FolderStructure.mk (PStr "src_dsn")
             [("dsn", "src/dsn"); ("tb", "src/tb"); ("self", EmptyString)]))
    [ FileList.mk "none" PNone (PStr "VHDL");
      FileList.mk "dsn" (PList [PStr "core.vhd"; PStr "regs.sv"])
        (PStr "VHDL") ]
    PNone PNone PNone DEFAULT_SIMULATORS DEFAULT_MAX_THREADS.

(** A value that is no container: a number or a truth value. *)
Definition is_scalar (v : pyval) : bool :=
  match v with
  | PBool _ | PInt _ => true
  | _ => false
  end.

(** The elements a loop over [files] visits, none when it cannot. *)
Definition iter_elems (v : pyval) : list pyval :=
  match py_iter v with
  | Ok elems => elems
  | Err _ => []
  end.

(** The strings among the elements a loop over [files] visits. *)
Definition iter_names (v : pyval) : list string :=
  flat_map (fun x => match x with PStr s => [s] | _ => [] end)
           (iter_elems v).

(** ** Facts about dictionaries and the error monad *)

Lemma bind_Ok_inv (A B : Type) (c : result A) (k : A -> result B) (b : B) :
  bind c k = Ok b -> exists a, c = Ok a /\ k a = Ok b.
Proof.
  destruct c as [a | e]; simpl; intros H.
  - exists a; split; [reflexivity | exact H].
  - discriminate H.
Qed.

Tactic Notation "bind_inv" hyp(H) "as" ident(a) ident(Ha) :=
  apply bind_Ok_inv in H; destruct H as [a [Ha H]].

Lemma dict_keys_mem (V : Type) (d : list (string * V)) (k : string) :
  In k (dict_keys d) <-> dict_mem k d = true.
Proof.
  unfold dict_mem. induction d as [| [k' v] rest IH]; simpl.
  - split; [intros [] | discriminate].
  - destruct (String.eqb_spec k k') as [-> | Hne].
    + split; auto.
    + rewrite filter_In, IH. split.
      * intros [Hc | [H _]]; [congruence | exact H].
      * intros H. right. split; [exact H |].
        apply negb_true_iff. apply String.eqb_neq. exact Hne.
Qed.

Lemma dict_keys_NoDup (V : Type) (d : list (string * V)) :
  NoDup (dict_keys d).
Proof.
  induction d as [| [k v] rest IH]; simpl.
  - constructor.
  - constructor.
    + rewrite filter_In. intros [_ H].
      rewrite String.eqb_refl in H. discriminate H.
    + apply NoDup_filter. exact IH.
Qed.

(** ** What construction leaves in [file_lists] *)

Lemma build_file_lists_inv files_v ds st kinds : forall acc fls,
  Manifest.build_file_lists files_v ds st kinds acc = Ok fls ->
  exists new,
    fls = acc ++ new /\
    map FileList.kind new = kinds /\
    Forall (built_for files_v ds st) new.
Proof.
  induction kinds as [| kind rest IH]; simpl; intros acc fls H.
  - injection H as <-. exists []. rewrite app_nil_r. auto.
  - bind_inv H as files Hfiles. bind_inv H as standard Hstd.
    apply IH in H. destruct H as [new [-> [Hk Hall]]].
    exists (FileList.init kind files standard :: new). split; [| split].
    + rewrite <- app_assoc. reflexivity.
    + simpl. rewrite Hk. reflexivity.
    + constructor; [| exact Hall]. split; assumption.
Qed.

Lemma init_inv d root m :
  Manifest.init d root = Ok m ->
  exists nm fd,
    dict_get "name" d = Some nm /\
    dict_get "files" d = Some (PDict fd) /\
    Manifest.root_dir m = root /\
    Manifest.name m = nm /\
    map FileList.kind (Manifest.file_lists m) = dict_keys fd /\
    Forall (built_for (PDict fd) (Manifest.get_or d "standard" (PStr "VHDL"))
              (Manifest.get_or d "standards" PNone))
           (Manifest.file_lists m).
Proof.
  unfold Manifest.init. intros H.
  bind_inv H as nm' Hnm. bind_inv H as fs Hfs.
  bind_inv H as files_v Hfv. bind_inv H as kinds Hkinds.
  bind_inv H as fls Hfls.
  injection H as <-. simpl.
  unfold dict_subscript in Hnm, Hfv.
  destruct (dict_get "name" d) as [nm |]; [| discriminate Hnm].
  injection Hnm as <-.
  destruct (dict_get "files" d) as [fv |]; [| discriminate Hfv].
  injection Hfv as <-.
  destruct fv as [| | | | | fd]; try discriminate Hkinds.
  injection Hkinds as <-.
  apply build_file_lists_inv in Hfls. destruct Hfls as [new [-> [Hk Hall]]].
  exists nm, fd. simpl. auto 10.
Qed.

Lemma append_inj_l (b s1 s2 : string) :
  (b ++ s1 = b ++ s2)%string -> s1 = s2.
Proof.
  induction b as [| c b IH]; simpl; intros H.
  - exact H.
  - injection H as H. apply IH. exact H.
Qed.

(** ** Standard resolution *)

Lemma built_standard (d : pydict) (root : Path) (m : Manifest.t)
    (fl : FileList.t) :
  Manifest.init d root = Ok m ->
  In fl (Manifest.file_lists m) ->
  FileList.standard fl
    = (if String.eqb (FileList.kind fl) "tb" then PStr "VHDL 2008"
       else spec_standard d (FileList.kind fl)).
Proof.
  intros Hinit Hin.
  destruct (init_inv _ _ Hinit) as [nm [fd [_ [_ [_ [_ [_ Hall]]]]]]].
  rewrite Forall_forall in Hall. destruct (Hall fl Hin) as [_ Hstd].
  unfold Manifest.kind_standard in Hstd.
  destruct (String.eqb (FileList.kind fl) "tb"); [congruence |].
  unfold spec_standard, declared_standard.
  unfold Manifest.get_or in Hstd.
  destruct (dict_get "standards" d) as [st |]; [| congruence].
  destruct st as [| b | z | s | l | sd]; simpl in Hstd;
    try discriminate Hstd; try congruence.
  - destruct (str_contains _ _); simpl in Hstd; congruence.
  - destruct (existsb _ _); simpl in Hstd; congruence.
  - unfold dict_mem, dict_subscript in Hstd.
    destruct (dict_get (FileList.kind fl) sd); congruence.
Qed.

Lemma declared_kind_built (d : pydict) (root : Path) (m : Manifest.t)
    (fd : pydict) (kind : string) :
  Manifest.init d root = Ok m ->
  dict_get "files" d = Some (PDict fd) ->
  dict_mem kind fd = true ->
  exists fl, In fl (Manifest.file_lists m) /\ FileList.kind fl = kind.
Proof.
  intros Hinit Hf Hmem.
  destruct (init_inv _ _ Hinit) as [nm [fd' [_ [Hf' [_ [_ [Hk _]]]]]]].
  rewrite Hf in Hf'. injection Hf' as <-.
  apply dict_keys_mem in Hmem. rewrite <- Hk in Hmem.
  apply in_map_iff in Hmem. destruct Hmem as [fl [Hkind Hin]].
  exists fl. auto.
Qed.

(** C1: in every manifest that construction produces, each FileList of
    kind "tb" has the standard "VHDL 2008", whatever the document declares
    as default [standard] or under [standards]; and a document whose
    [files] declare "tb" yields such a FileList. *)
Theorem tb_standard_forced (d : pydict) (root : Path) (m : Manifest.t) :
  Manifest.init d root = Ok m ->
  (forall fl, In fl (Manifest.file_lists m) ->
              FileList.kind fl = "tb" ->
              FileList.standard fl = PStr "VHDL 2008") /\
  (forall fd, dict_get "files" d = Some (PDict fd) ->
              dict_mem "tb" fd = true ->
              exists fl, In fl (Manifest.file_lists m) /\
                         FileList.kind fl = "tb" /\
                         FileList.standard fl = PStr "VHDL 2008").
Proof.
  intros Hinit.
  assert (Htb : forall fl, In fl (Manifest.file_lists m) ->
                           FileList.kind fl = "tb" ->
                           FileList.standard fl = PStr "VHDL 2008").
  { intros fl Hin Hkind.
    rewrite (built_standard d root fl Hinit Hin), Hkind. reflexivity. }
  split; [exact Htb |].
  intros fd Hf Hmem.
  destruct (declared_kind_built d root "tb" Hinit Hf Hmem)
    as [fl [Hin Hkind]].
  exists fl. auto.
Qed.

Lemma tb_standard_forced_witness :
  exists m,
    Manifest.init ex_doc_tb_override ex_root = Ok m /\
    exists fl, In fl (Manifest.file_lists m) /\
               FileList.kind fl = "tb" /\
               FileList.standard fl = PStr "VHDL 2008".
Proof.
  eexists. split; [reflexivity |].
  eapply (tb_standard_forced ex_doc_tb_override ex_root); reflexivity.
Defined.

(** C2: in every manifest that construction produces, a FileList of a
    kind other than "tb" has the entry of the [standards] map for its kind
    when there is one, otherwise the declared default [standard], and
    "VHDL" when the document declares none; every kind declared under
    [files] has its FileList. *)
Theorem standard_precedence (d : pydict) (root : Path) (m : Manifest.t) :
  Manifest.init d root = Ok m ->
  (forall fl, In fl (Manifest.file_lists m) ->
              FileList.kind fl <> "tb" ->
              FileList.standard fl = spec_standard d (FileList.kind fl)) /\
  (forall fd kind, dict_get "files" d = Some (PDict fd) ->
                   dict_mem kind fd = true ->
                   exists fl, In fl (Manifest.file_lists m) /\
                              FileList.kind fl = kind).
Proof.
  intros Hinit. split.
  - intros fl Hin Hkind.
    rewrite (built_standard d root fl Hinit Hin).
    apply String.eqb_neq in Hkind. rewrite Hkind. reflexivity.
  - intros fd kind. apply (declared_kind_built d root kind Hinit).
Qed.

Lemma standard_precedence_witness :
  exists m,
    Manifest.init ex_doc ex_root = Ok m /\
    exists fl, In fl (Manifest.file_lists m) /\
               FileList.kind fl = "dsn" /\
               FileList.standard fl = PStr "VHDL 2008".
Proof.
  eexists. split; [reflexivity |].
  destruct (standard_precedence ex_doc ex_root eq_refl) as [Hstd Hex].
  destruct (Hex _ "dsn" eq_refl eq_refl) as [fl [Hin Hkind]].
  exists fl. split; [exact Hin | split; [exact Hkind |]].
  rewrite (Hstd fl Hin); rewrite Hkind; [reflexivity | discriminate].
Defined.

(** ** Library names *)

(** C3: for every block name, [get_lib_name] of a FileList of kind "dsn",
    "tb", "self", "none" is the block name followed by "_dsn", "_tb",
    "_lib" and nothing, and these four names are pairwise distinct. *)
Theorem lib_names_distinct (blk_name : string) (files standard : pyval) :
  let lib kind := FileList.get_lib_name (FileList.init kind files standard)
                    blk_name in
  lib "dsn" = Ok (blk_name ++ "_dsn")%string /\
  lib "tb" = Ok (blk_name ++ "_tb")%string /\
  lib "self" = Ok (blk_name ++ "_lib")%string /\
  lib "none" = Ok blk_name /\
  NoDup [ (blk_name ++ "_dsn")%string; (blk_name ++ "_tb")%string;
          (blk_name ++ "_lib")%string; blk_name ].
Proof.
  cbv zeta. unfold FileList.get_lib_name. simpl.
  assert (Hnil : (blk_name ++ EmptyString)%string = blk_name).
  { induction blk_name as [| c b IH]; simpl; [| rewrite IH]; reflexivity. }
  rewrite Hnil.
  repeat split.
  rewrite <- Hnil at 4.
  repeat constructor; simpl; intros H;
    repeat match goal with
           | H : _ \/ _ |- _ => destruct H as [H | H]
           | H : False |- _ => destruct H
           | H : (_ ++ _ = _ ++ _)%string |- _ =>
               apply append_inj_l in H; discriminate H
           end.
Qed.

(** ** The projection [get_all_files] *)

Lemma mapM_truediv_names (dir : Path) (names : list string) :
  mapM (truediv dir) (map PStr names) = Ok (map (joinpath dir) names).
Proof.
  induction names as [| n rest IH]; simpl.
  - reflexivity.
  - rewrite IH. reflexivity.
Qed.

Section AllFiles.
Variable m : Manifest.t.
Variable dir_of : string -> Path.
Variable names_of : FileList.t -> list string.

Lemma extend_all_projection : forall fls ret,
  (forall fl, In fl fls ->
     Manifest.get_source_dir m (FileList.kind fl)
       = Ok (dir_of (FileList.kind fl))) ->
  (forall fl, In fl fls ->
     FileList.files fl = PList (map PStr (names_of fl))) ->
  Manifest.extend_all m fls ret
    = Ok (ret ++ flat_map
                   (fun fl => map (joinpath (dir_of (FileList.kind fl)))
                                  (names_of fl))
                   fls).
Proof.
  induction fls as [| fl rest IH]; simpl; intros ret Hdir Hfiles.
  - rewrite app_nil_r. reflexivity.
  - unfold Manifest.file_list_paths.
    rewrite (Hdir fl (or_introl eq_refl)),
            (Hfiles fl (or_introl eq_refl)).
    simpl. rewrite mapM_truediv_names. simpl.
    rewrite IH by (intros; auto).
    rewrite <- app_assoc. reflexivity.
Qed.
End AllFiles.

Lemma get_all_files_none_kind_raises :
  Manifest.init ex_doc_none_kind ex_root = Ok ex_manifest_none_kind /\
  Manifest.get_all_files ex_manifest_none_kind
    = Err (KeyError (PStr "none")) /\
  ~ (exists paths,
       Manifest.get_all_files ex_manifest_none_kind = Ok paths).
Proof.
  split; [reflexivity |]. split; [reflexivity |].
  intros [paths H]. discriminate H.
Qed.

(** C4 (amended): for a manifest whose FileLists hold sequences of file
    names and whose kinds all resolve to a source directory (it has no
    folder structure, or every kind has an entry in the structure),
    [get_all_files] returns, FileList after FileList in the order of
    [file_lists] and
    name after name, each file name joined to the source directory of
    its FileList; the number of paths is the sum of the file counts, so
    nothing is dropped or merged. *)
Theorem get_all_files_projection (m : Manifest.t)
    (dir_of : string -> Path) (names_of : FileList.t -> list string) :
  (forall fl, In fl (Manifest.file_lists m) ->
     Manifest.get_source_dir m (FileList.kind fl)
       = Ok (dir_of (FileList.kind fl))) ->
  (forall fl, In fl (Manifest.file_lists m) ->
     FileList.files fl = PList (map PStr (names_of fl))) ->
  exists paths,
    Manifest.get_all_files m = Ok paths /\
    paths = flat_map
              (fun fl => map (joinpath (dir_of (FileList.kind fl)))
                             (names_of fl))
              (Manifest.file_lists m) /\
    length paths = list_sum (map file_count (Manifest.file_lists m)).
Proof.
  intros Hdir Hfiles. eexists. split; [| split; [reflexivity |]].
  - unfold Manifest.get_all_files.
    rewrite (extend_all_projection m dir_of names_of _ [] Hdir Hfiles).
    reflexivity.
  - rewrite length_flat_map. f_equal.
    apply map_ext_in. intros fl Hin.
    unfold file_count. rewrite (Hfiles fl Hin).
    rewrite !length_map. reflexivity.
Qed.

Lemma get_all_files_projection_witness :
  Manifest.init ex_doc_repeat ex_root = Ok ex_manifest_repeat /\
  exists paths,
    Manifest.get_all_files ex_manifest_repeat = Ok paths /\
    paths = [ mkPath "/" ["work"; "blk"; "src"; "dsn"; "a.vhd"];
              mkPath "/" ["work"; "blk"; "src"; "dsn"; "a.vhd"];
              mkPath "/" ["work"; "blk"; "a.vhd"] ] /\
    length paths = 3.
Proof.
  split; [reflexivity |].
  apply (get_all_files_projection ex_manifest_repeat
           (source_dir_or_root ex_manifest_repeat)
           (fun fl => str_names (FileList.files fl)));
    intros fl [<- | [<- | [<- | []]]]; reflexivity.
Defined.

(** ** Source directories *)

(** C5: a manifest without folder structure resolves every kind to its
    root directory; a manifest whose folder structure is the one built
    for "src_dsn" resolves "dsn" to root/src/dsn, "tb" to root/src/tb and
    "self" to the root itself. *)
Theorem source_dir_resolution (m : Manifest.t) :
  (Manifest.folder_structure m = None ->
   forall kind, Manifest.get_source_dir m kind = Ok (Manifest.root_dir m)) /\
  (forall fs,
     FolderStructure.init (PStr "src_dsn") = Ok fs ->
     Manifest.folder_structure m = Some fs ->
     let root := Manifest.root_dir m in
     Manifest.get_source_dir m "dsn"
       = Ok (mkPath (anchor root) (parts root ++ ["src"; "dsn"])) /\
     Manifest.get_source_dir m "tb"
       = Ok (mkPath (anchor root) (parts root ++ ["src"; "tb"])) /\
     Manifest.get_source_dir m "self" = Ok root).
Proof.
  unfold Manifest.get_source_dir. split.
  - intros -> kind. reflexivity.
  - intros fs Hfs ->. injection Hfs as <-. cbv zeta. simpl.
    unfold joinpath. simpl. rewrite app_nil_r.
    destruct (Manifest.root_dir m). auto.
Qed.

Lemma source_dir_resolution_witness :
  Manifest.init ex_doc_repeat ex_root = Ok ex_manifest_repeat /\
  Manifest.get_source_dir ex_manifest_repeat "dsn"
    = Ok (mkPath "/" ["work"; "blk"; "src"; "dsn"]) /\
  Manifest.get_source_dir ex_manifest_repeat "tb"
    = Ok (mkPath "/" ["work"; "blk"; "src"; "tb"]) /\
  Manifest.get_source_dir ex_manifest_repeat "self" = Ok ex_root.
Proof.
  split; [reflexivity |].
  apply (proj2 (source_dir_resolution ex_manifest_repeat)
           (FolderStructure.mk (PStr "src_dsn")
              [("dsn", "src/dsn"); ("tb", "src/tb"); ("self", EmptyString)]));
    reflexivity.
Defined.

(** ** The preferred simulator *)

Lemma existsb_py_str_eq (s : string) (l : list pyval) :
  existsb (py_str_eq s) l = true <-> In (PStr s) l.
Proof.
  rewrite existsb_exists. split.
  - intros [v [Hin Heq]]. destruct v; try discriminate Heq.
    simpl in Heq. apply String.eqb_eq in Heq. subst. exact Hin.
  - intros Hin. exists (PStr s). split; [exact Hin |].
    simpl. apply String.eqb_refl.
Qed.

Lemma first_supported_list (l : list pyval) : forall order,
  exists r,
    Manifest.first_supported order (PList l) = Ok r /\
    match r with
    | Some s =>
        exists before after,
          order = before ++ s :: after /\
          In (PStr s) l /\
          forall s', In s' before -> ~ In (PStr s') l
    | None => forall s', In s' order -> ~ In (PStr s') l
    end.
Proof.
  induction order as [| sim rest IH]; simpl.
  - exists None. split; [reflexivity |]. intros s' [].
  - destruct (existsb (py_str_eq sim) l) eqn:Hex.
    + exists (Some sim). split; [reflexivity |].
      exists [], rest. split; [reflexivity |]. split.
      * apply existsb_py_str_eq. exact Hex.
      * intros s' [].
    + destruct IH as [r [Hr Hspec]]. exists r. split; [exact Hr |].
      assert (Hsim : ~ In (PStr sim) l).
      { intros Hin. apply existsb_py_str_eq in Hin. congruence. }
      destruct r as [s |].
      * destruct Hspec as [before [after [-> [Hin Hbefore]]]].
        exists (sim :: before), after. split; [reflexivity |].
        split; [exact Hin |].
        intros s' [<- | Hs']; [exact Hsim | apply Hbefore; exact Hs'].
      * intros s' [<- | Hs']; [exact Hsim | apply Hspec; exact Hs'].
Qed.

(** C6: when [supported_simulators] is a list, [get_preferred_simulator]
    raises nothing; it returns the first name of the order ghdl, qsim,
    msim, msim_free, xsim that is an element of the list, and returns
    [None] when no name of the order is an element. *)
Theorem preferred_simulator_first (m : Manifest.t) (supported : list pyval) :
  Manifest.supported_simulators m = PList supported ->
  Manifest.preference_order = ["ghdl"; "qsim"; "msim"; "msim_free"; "xsim"] /\
  exists r,
    Manifest.get_preferred_simulator m = Ok r /\
    match r with
    | Some s =>
        exists before after,
          Manifest.preference_order = before ++ s :: after /\
          In (PStr s) supported /\
          forall s', In s' before -> ~ In (PStr s') supported
    | None =>
        forall s', In s' Manifest.preference_order ->
                   ~ In (PStr s') supported
    end.
Proof.
  intros Hsup. split; [reflexivity |].
  unfold Manifest.get_preferred_simulator. rewrite Hsup.
  apply first_supported_list.
Qed.

Lemma preferred_simulator_first_witness :
  Manifest.supported_simulators ex_manifest_repeat
    = PList [PStr "xsim"; PStr "msim"] /\
  Manifest.get_preferred_simulator ex_manifest_repeat = Ok (Some "msim") /\
  exists r,
    Manifest.get_preferred_simulator ex_manifest_repeat = Ok r /\
    match r with
    | Some s => In (PStr s) [PStr "xsim"; PStr "msim"]
    | None => False
    end.
Proof.
  split; [reflexivity |]. split; [reflexivity |].
  destruct (preferred_simulator_first ex_manifest_repeat
              (supported := [PStr "xsim"; PStr "msim"]) eq_refl)
    as [_ [r [Hr Hspec]]].
  exists r. split; [exact Hr |].
  destruct r as [s |].
  - destruct Hspec as [before [after [_ [Hin _]]]]. exact Hin.
  - apply (Hspec "xsim"); simpl; auto 10.
Defined.

Example preferred_simulator_empty (m : Manifest.t) :
  Manifest.supported_simulators m = PList [] ->
  Manifest.get_preferred_simulator m = Ok None.
Proof.
  unfold Manifest.get_preferred_simulator. intros ->. reflexivity.
Qed.

Example preferred_simulator_xsim_only (m : Manifest.t) :
  Manifest.supported_simulators m = PList [PStr "xsim"] ->
  Manifest.get_preferred_simulator m = Ok (Some "xsim").
Proof.
  unfold Manifest.get_preferred_simulator. intros ->. reflexivity.
Qed.

(** ** Unknown folder structures *)

Lemma unknown_structure_construction_raises :
  FolderStructure.init (PStr "flat") = Err (KeyError (PStr "flat")) /\
  ~ (exists fs, FolderStructure.init (PStr "flat") = Ok fs /\
                FolderStructure.name fs = PNone).
Proof.
  split; [reflexivity |].
  intros [fs [H _]]. discriminate H.
Qed.

Lemma lookup_unknown (v : pyval) :
  FolderStructure.is_known v = Ok false ->
  FolderStructure.lookup v = Err (KeyError v).
Proof.
  unfold FolderStructure.is_known, FolderStructure.lookup, dict_mem.
  destruct v as [| b | z | s | l | d]; try reflexivity; try discriminate.
  destruct (dict_get s FolderStructure.folder_structures).
  - discriminate.
  - reflexivity.
Qed.

(** C7 (amended): for a convention that is not a key of the table of
    folder structures, the value computed for [name] is [None], and
    constructing the structure and then resolving any kind never yields a
    directory: it ends in a [KeyError] that carries the convention, for a
    bare [FolderStructure] and for a manifest that declares it. *)
Theorem unknown_structure_never_resolves (v : pyval) :
  FolderStructure.is_known v = Ok false ->
  FolderStructure.init_name v = Ok PNone /\
  (forall kind,
     (fs <- FolderStructure.init v ;;
      FolderStructure.structure_subscript fs kind) = Err (KeyError v)) /\
  (forall d root nm kind,
     dict_get "name" d = Some nm ->
     dict_get "folder_structure" d = Some v ->
     (m <- Manifest.init d root ;; Manifest.get_source_dir m kind)
       = Err (KeyError v)).
Proof.
  intros Hknown. pose proof (lookup_unknown v Hknown) as Hlookup.
  assert (Hinit : FolderStructure.init v = Err (KeyError v)).
  { unfold FolderStructure.init, FolderStructure.init_name.
    rewrite Hknown, Hlookup. reflexivity. }
  split; [| split].
  - unfold FolderStructure.init_name. rewrite Hknown. reflexivity.
  - intros kind. rewrite Hinit. reflexivity.
  - intros d root nm kind Hname Hfs.
    unfold Manifest.init, dict_subscript.
    rewrite Hname, Hfs, Hinit. reflexivity.
Qed.

Lemma unknown_structure_never_resolves_witness :
  FolderStructure.init_name (PStr "flat") = Ok PNone /\
  (fs <- FolderStructure.init (PStr "flat") ;;
   FolderStructure.structure_subscript fs "dsn")
    = Err (KeyError (PStr "flat")).
Proof.
  destruct (unknown_structure_never_resolves (PStr "flat") eq_refl)
    as [Hname [Hres _]].
  split; [exact Hname | exact (Hres "dsn")].
Defined.

(** ** Required keys *)

Lemma missing_name_not_MissingRequiredField :
  Manifest.init [("files", PDict [("dsn", PList [PStr "a.vhd"])])] ex_root
    = Err (KeyError (PStr "name")) /\
  ~ (exists e,
       Manifest.init [("files", PDict [("dsn", PList [PStr "a.vhd"])])]
                     ex_root = Err e /\
       exception_class e = "MissingRequiredField").
Proof.
  split; [reflexivity |].
  intros [e [H Hclass]]. injection H as <-. discriminate Hclass.
Qed.

Lemma known_structure_init (d : pydict) :
  known_or_absent_structure d = true ->
  exists fs,
    match dict_get "folder_structure" d with
    | Some v => s <- FolderStructure.init v ;; Ok (Some s)
    | None => Ok None
    end = Ok fs.
Proof.
  unfold known_or_absent_structure.
  destruct (dict_get "folder_structure" d) as [v |].
  - destruct v as [| b | z | s | l | fd]; try discriminate.
    unfold FolderStructure.init, FolderStructure.init_name,
      FolderStructure.is_known, FolderStructure.lookup, dict_mem.
    destruct (dict_get s FolderStructure.folder_structures) as [st |].
    + intros _. eexists. reflexivity.
    + discriminate.
  - intros _. eexists. reflexivity.
Qed.

Lemma kind_standard_no_KeyError ds st kind k :
  Manifest.kind_standard ds st kind <> Err (KeyError k).
Proof.
  unfold Manifest.kind_standard.
  destruct (String.eqb kind "tb"); [discriminate |].
  destruct st as [| b | z | s | l | sd]; simpl; try discriminate.
  - destruct (str_contains kind s); discriminate.
  - destruct (existsb (py_str_eq kind) l); discriminate.
  - unfold dict_mem, dict_subscript.
    destruct (dict_get kind sd); discriminate.
Qed.

Lemma build_file_lists_no_KeyError fd ds st k : forall kinds acc,
  (forall kind, In kind kinds -> dict_mem kind fd = true) ->
  Manifest.build_file_lists (PDict fd) ds st kinds acc <> Err (KeyError k).
Proof.
  induction kinds as [| kind rest IH]; simpl; intros acc Hmem.
  - discriminate.
  - unfold dict_subscript.
    pose proof (Hmem kind (or_introl eq_refl)) as Hk. unfold dict_mem in Hk.
    destruct (dict_get kind fd) as [files |]; [| discriminate Hk]. simpl.
    destruct (Manifest.kind_standard ds st kind) as [standard | e] eqn:Hstd;
      simpl.
    + apply IH. intros; apply Hmem; right; assumption.
    + intros H. injection H as ->.
      exact (kind_standard_no_KeyError _ _ _ Hstd).
Qed.

(** C8 (amended): a document without [name] makes construction raise
    [KeyError('name')]; a document with [name], with no folder structure
    or one of the table, and without [files] makes it raise
    [KeyError('files')]; with both keys present construction raises no
    [KeyError] at all. *)
Theorem missing_required_key (d : pydict) (root : Path) :
  (dict_get "name" d = None ->
   Manifest.init d root = Err (KeyError (PStr "name"))) /\
  (dict_get "name" d <> None ->
   known_or_absent_structure d = true ->
   (dict_get "files" d = None ->
    Manifest.init d root = Err (KeyError (PStr "files"))) /\
   (dict_get "files" d <> None ->
    forall k, Manifest.init d root <> Err (KeyError k))).
Proof.
  unfold Manifest.init, dict_subscript. split.
  - intros ->. reflexivity.
  - intros Hname Hknown.
    destruct (dict_get "name" d) as [nm |]; [| congruence]. simpl.
    destruct (known_structure_init d Hknown) as [fs ->]. simpl.
    split.
    + intros ->. reflexivity.
    + intros Hfiles k.
      destruct (dict_get "files" d) as [fv |]; [| congruence]. simpl.
      destruct fv as [| b | z | s | l | fd]; simpl; try discriminate.
      destruct (Manifest.build_file_lists _ _ _ _ _) as [fls | e] eqn:Hb;
        simpl; [discriminate |].
      intros H. injection H as ->.
      revert Hb. apply build_file_lists_no_KeyError.
      intros kind Hin. apply dict_keys_mem. exact Hin.
Qed.

Lemma missing_required_key_witness :
  Manifest.init [("files", PDict [])] ex_root
    = Err (KeyError (PStr "name")) /\
  Manifest.init [("name", PStr "blk")] ex_root
    = Err (KeyError (PStr "files")) /\
  Manifest.init ex_doc ex_root <> Err (KeyError (PStr "files")).
Proof.
  split; [| split].
  - apply (proj1 (missing_required_key [("files", PDict [])] ex_root)).
    reflexivity.
  - apply (proj2 (missing_required_key [("name", PStr "blk")] ex_root));
      [discriminate | reflexivity | reflexivity].
  - apply (proj2 (missing_required_key ex_doc ex_root));
      [discriminate | reflexivity | discriminate].
Defined.

(** ** Absent file lists *)

(** C9: on a document with a null value under [files], construction
    yields a FileList whose [files] is [None], and [get_all_files] then
    raises [TypeError] instead of returning the paths of the other
    kinds. *)
Theorem null_files_get_all_files_raises :
  Manifest.init ex_doc_null ex_root = Ok ex_manifest_null /\
  Manifest.get_all_files ex_manifest_null = Err TypeError.
Proof.
  split; reflexivity.
Qed.

(** ** Kinds outside the table *)

Lemma kind_standard_map_total d kind :
  standards_is_map d = true ->
  exists standard,
    Manifest.kind_standard (Manifest.get_or d "standard" (PStr "VHDL"))
      (Manifest.get_or d "standards" PNone) kind = Ok standard.
Proof.
  unfold standards_is_map, Manifest.kind_standard, Manifest.get_or.
  destruct (String.eqb kind "tb"); [eexists; reflexivity |].
  destruct (dict_get "standards" d) as [st |];
    [| eexists; reflexivity].
  destruct st as [| b | z | s | l | sd]; try discriminate; intros _.
  - eexists; reflexivity.
  - simpl. unfold dict_mem, dict_subscript.
    destruct (dict_get kind sd); eexists; reflexivity.
Qed.

Lemma build_file_lists_total d fd : forall kinds acc,
  standards_is_map d = true ->
  (forall kind, In kind kinds -> dict_mem kind fd = true) ->
  exists fls,
    Manifest.build_file_lists (PDict fd)
      (Manifest.get_or d "standard" (PStr "VHDL"))
      (Manifest.get_or d "standards" PNone) kinds acc = Ok fls.
Proof.
  induction kinds as [| kind rest IH]; simpl; intros acc Hst Hmem.
  - eexists; reflexivity.
  - unfold dict_subscript.
    pose proof (Hmem kind (or_introl eq_refl)) as Hk. unfold dict_mem in Hk.
    destruct (dict_get kind fd) as [files |]; [| discriminate Hk]. simpl.
    destruct (kind_standard_map_total d kind Hst) as [standard ->]. simpl.
    apply IH; [exact Hst | intros; apply Hmem; right; assumption].
Qed.

(** C10: construction checks no kind: for a document with [name], a
    mapping under [files] with any strings as keys, no folder structure
    or one of the table, and no [standards] or a mapping, it succeeds
    with one FileList per key, in the order of the keys, each with the
    standard of the precedence rules; [get_lib_name] on a FileList whose
    kind is no key of [FileList.kinds] raises [KeyError] with that kind. *)
Theorem no_kind_validation (d : pydict) (root : Path) (nm : pyval)
    (fd : pydict) :
  dict_get "name" d = Some nm ->
  dict_get "files" d = Some (PDict fd) ->
  known_or_absent_structure d = true ->
  standards_is_map d = true ->
  exists m,
    Manifest.init d root = Ok m /\
    map FileList.kind (Manifest.file_lists m) = dict_keys fd /\
    forall fl, In fl (Manifest.file_lists m) ->
      FileList.standard fl
        = (if String.eqb (FileList.kind fl) "tb" then PStr "VHDL 2008"
           else spec_standard d (FileList.kind fl)) /\
      (dict_mem (FileList.kind fl) FileList.kinds = false ->
       forall blk_name,
         FileList.get_lib_name fl blk_name
           = Err (KeyError (PStr (FileList.kind fl)))).
Proof.
  intros Hname Hfiles Hknown Hst.
  assert (Hok : exists m, Manifest.init d root = Ok m).
  { unfold Manifest.init, dict_subscript. rewrite Hname, Hfiles. simpl.
    destruct (known_structure_init d Hknown) as [fs ->]. simpl.
    destruct (build_file_lists_total d fd (dict_keys fd) [] Hst)
      as [fls ->].
    - intros kind Hin. apply dict_keys_mem. exact Hin.
    - simpl. eexists. reflexivity. }
  destruct Hok as [m Hinit]. exists m. split; [exact Hinit |].
  destruct (init_inv _ _ Hinit) as [nm' [fd' [_ [Hf [_ [_ [Hk _]]]]]]].
  rewrite Hfiles in Hf. injection Hf as <-.
  split; [exact Hk |].
  intros fl Hin. split.
  - exact (built_standard d root fl Hinit Hin).
  - intros Hmem blk_name. unfold FileList.get_lib_name.
    unfold dict_mem in Hmem.
    destruct (dict_get (FileList.kind fl) FileList.kinds);
      [discriminate Hmem | reflexivity].
Qed.

Lemma no_kind_validation_witness :
  exists m,
    Manifest.init ex_doc_sim_kind ex_root = Ok m /\
    map FileList.kind (Manifest.file_lists m) = ["sim"; "dsn"] /\
    forall fl, In fl (Manifest.file_lists m) ->
      FileList.kind fl = "sim" ->
      FileList.standard fl = PStr "VHDL 2008" /\
      FileList.get_lib_name fl "blk" = Err (KeyError (PStr "sim")).
Proof.
  destruct (no_kind_validation ex_doc_sim_kind ex_root
              (nm := PStr "blk")
              (fd := [("sim", PList [PStr "model.vhd"]);
                      ("dsn", PList [PStr "a.vhd"])])
              eq_refl eq_refl eq_refl eq_refl)
    as [m [Hinit [Hkinds Hfl]]].
  exists m. split; [exact Hinit |]. split; [exact Hkinds |].
  intros fl Hin Hkind. destruct (Hfl fl Hin) as [Hstd Hlib].
  rewrite Hkind in Hstd, Hlib. split.
  - exact Hstd.
  - apply Hlib. reflexivity.
Defined.

(** * Further properties of the module and of its callers *)

(** ** Strings *)

Lemma string_app_nil_r (s : string) : (s ++ EmptyString)%string = s.
Proof.
  induction s as [| c s IH]; simpl; [| rewrite IH]; reflexivity.
Qed.

Lemma string_app_assoc (a b c : string) :
  ((a ++ b) ++ c)%string = (a ++ (b ++ c))%string.
Proof.
  induction a as [| x a IH]; simpl; [| rewrite IH]; reflexivity.
Qed.

Lemma string_length_app (a b : string) :
  String.length (a ++ b)%string = String.length a + String.length b.
Proof.
  induction a as [| x a IH]; simpl; [| rewrite IH]; reflexivity.
Qed.

Lemma append_inj_r (s : string) : forall b1 b2 : string,
  (b1 ++ s = b2 ++ s)%string -> b1 = b2.
Proof.
  induction b1 as [| c1 b1 IH]; intros [| c2 b2] H; simpl in H.
  - reflexivity.
  - apply (f_equal String.length) in H. simpl in H.
    rewrite string_length_app in H. lia.
  - apply (f_equal String.length) in H. simpl in H.
    rewrite string_length_app in H. lia.
  - injection H as -> H. f_equal. apply IH. exact H.
Qed.

Lemma prefix_app_l (a b : string) : forall h,
  String.prefix (a ++ b) h = true -> String.prefix a h = true.
Proof.
  induction a as [| x a IH]; intros h H.
  - destruct h; reflexivity.
  - destruct h as [| y h]; simpl in *; [discriminate H |].
    destruct (ascii_dec x y); [apply IH; exact H | discriminate H].
Qed.

Lemma str_contains_eq (needle hay : string) :
  str_contains needle hay
  = String.prefix needle hay
    || match hay with
       | EmptyString => false
       | String _ hay' => str_contains needle hay'
       end.
Proof.
  destruct hay; reflexivity.
Qed.

Lemma str_contains_app_l (a b : string) : forall h,
  str_contains (a ++ b) h = true -> str_contains a h = true.
Proof.
  induction h as [| y h IH]; intros H.
  - rewrite (str_contains_eq (a ++ b) EmptyString) in H.
    rewrite (str_contains_eq a EmptyString).
    apply orb_true_iff in H. destruct H as [H | H]; [| discriminate H].
    apply orb_true_iff. left. apply (prefix_app_l a b). exact H.
  - rewrite (str_contains_eq (a ++ b) (String y h)) in H.
    rewrite (str_contains_eq a (String y h)).
    apply orb_true_iff in H. apply orb_true_iff. destruct H as [H | H].
    + left. apply (prefix_app_l a b). exact H.
    + right. apply IH. exact H.
Qed.

(** ** Construction, field by field *)

Lemma init_fields d root m :
  Manifest.init d root = Ok m ->
  match dict_get "folder_structure" d with
  | Some v => exists fs, FolderStructure.init v = Ok fs /\
                         Manifest.folder_structure m = Some fs
  | None => Manifest.folder_structure m = None
  end /\
  Manifest.blocks m = Manifest.get_or d "blocks" PNone /\
  Manifest.constraints m = Manifest.get_or d "constraints" PNone /\
  Manifest.ips m = Manifest.get_or d "ips" PNone /\
  Manifest.supported_simulators m
    = Manifest.get_or d "supported_simulators" DEFAULT_SIMULATORS /\
  Manifest.max_threads m
    = Manifest.get_or d "max_threads" DEFAULT_MAX_THREADS.
Proof.
  unfold Manifest.init. intros H.
  bind_inv H as nm Hnm. bind_inv H as fs Hfs.
  bind_inv H as files_v Hfv. bind_inv H as kinds Hkinds.
  bind_inv H as fls Hfls.
  injection H as <-. simpl.
  split; [| auto].
  destruct (dict_get "folder_structure" d) as [v |].
  - bind_inv Hfs as s Hs. injection Hfs as <-. exists s. auto.
  - injection Hfs as <-. reflexivity.
Qed.

Lemma folder_structure_init_cases (v : pyval) (fs : FolderStructure.t) :
  FolderStructure.init v = Ok fs ->
  (v = PStr "src_dsn" /\
   fs = FolderStructure.mk (PStr "src_dsn")
          [("dsn", "src/dsn"); ("tb", "src/tb"); ("self", EmptyString)]) \/
  (v = PStr "hdl_sim" /\
   fs = FolderStructure.mk (PStr "hdl_sim")
          [("dsn", ".."); ("tb", "."); ("self", EmptyString)]).
Proof.
  unfold FolderStructure.init, FolderStructure.init_name,
    FolderStructure.is_known, FolderStructure.lookup, dict_mem.
  destruct v as [| b | z | s | l | fd]; try discriminate.
  unfold FolderStructure.folder_structures. simpl.
  destruct (String.eqb_spec s "src_dsn") as [-> | H1].
  - simpl. intros H. injection H as <-. left. auto.
  - destruct (String.eqb_spec s "hdl_sim") as [-> | H2].
    + simpl. intros H. injection H as <-. right. auto.
    + simpl. discriminate.
Qed.

(** ** Folder structures *)

(** X1: a FolderStructure that construction returns was built from one
    of the two names of the table; its [name] is that name (never
    [None]) and its structure has exactly the kinds dsn, tb and self. *)
Theorem folder_structure_built_known (v : pyval) (fs : FolderStructure.t) :
  FolderStructure.init v = Ok fs ->
  (v = PStr "src_dsn" \/ v = PStr "hdl_sim") /\
  FolderStructure.name fs = v /\
  map fst (FolderStructure.structure fs) = ["dsn"; "tb"; "self"].
Proof.
  intros H. destruct (folder_structure_init_cases v H) as [[-> ->] | [-> ->]];
    simpl; auto.
Qed.

Lemma folder_structure_built_known_witness :
  exists fs,
    FolderStructure.init (PStr "hdl_sim") = Ok fs /\
    FolderStructure.name fs = PStr "hdl_sim" /\
    map fst (FolderStructure.structure fs) = ["dsn"; "tb"; "self"].
Proof.
  eexists. split; [reflexivity |].
  apply (folder_structure_built_known (PStr "hdl_sim")). reflexivity.
Defined.

(** X2: under the "hdl_sim" structure the design sources resolve to the
    parent component of the root, and the testbench and self kinds both
    resolve to the root itself. *)
Theorem hdl_sim_source_dirs (m : Manifest.t) (fs : FolderStructure.t) :
  FolderStructure.init (PStr "hdl_sim") = Ok fs ->
  Manifest.folder_structure m = Some fs ->
  let root := Manifest.root_dir m in
  Manifest.get_source_dir m "dsn"
    = Ok (mkPath (anchor root) (parts root ++ [".."])) /\
  Manifest.get_source_dir m "tb" = Ok root /\
  Manifest.get_source_dir m "self" = Ok root.
Proof.
  intros Hfs Hm. injection Hfs as <-.
  unfold Manifest.get_source_dir. rewrite Hm. cbv zeta. simpl.
  unfold joinpath. simpl. rewrite app_nil_r.
  destruct (Manifest.root_dir m). auto.
Qed.

Lemma hdl_sim_source_dirs_witness :
  Manifest.init ex_doc_hdl_sim ex_root = Ok ex_manifest_hdl_sim /\
  Manifest.get_source_dir ex_manifest_hdl_sim "dsn"
    = Ok (mkPath "/" ["work"; "blk"; ".."]) /\
  Manifest.get_source_dir ex_manifest_hdl_sim "tb" = Ok ex_root /\
  Manifest.get_source_dir ex_manifest_hdl_sim "self" = Ok ex_root.
Proof.
  split; [reflexivity |].
  apply (hdl_sim_source_dirs ex_manifest_hdl_sim
           (fs := FolderStructure.mk (PStr "hdl_sim")
                    [("dsn", ".."); ("tb", "."); ("self", EmptyString)]));
    reflexivity.
Defined.

(** X3: in a manifest that construction built with a folder structure,
    [get_source_dir] resolves exactly the kinds dsn, tb and self; any
    other kind, "none" included, raises [KeyError] with the kind. *)
Theorem source_dir_known_kinds (d : pydict) (root : Path) (m : Manifest.t)
    (fs : FolderStructure.t) (kind : string) :
  Manifest.init d root = Ok m ->
  Manifest.folder_structure m = Some fs ->
  (In kind ["dsn"; "tb"; "self"] ->
   exists dir, Manifest.get_source_dir m kind = Ok dir) /\
  (~ In kind ["dsn"; "tb"; "self"] ->
   Manifest.get_source_dir m kind = Err (KeyError (PStr kind))).
Proof.
  intros Hinit Hm.
  destruct (init_fields _ _ Hinit) as [Hfs _]. rewrite Hm in Hfs.
  assert (Hbuilt : exists v, FolderStructure.init v = Ok fs).
  { destruct (dict_get "folder_structure" d) as [v |].
    - destruct Hfs as [fs' [Hi Heq]]. injection Heq as <-. exists v. exact Hi.
    - discriminate Hfs. }
  destruct Hbuilt as [v Hv].
  unfold Manifest.get_source_dir, FolderStructure.structure_subscript.
  rewrite Hm.
  destruct (folder_structure_init_cases v Hv) as [[_ ->] | [_ ->]]; simpl;
    (split;
     [ intros [<- | [<- | [<- | []]]]; simpl; eexists; reflexivity
     | intros Hnot;
       destruct (String.eqb_spec kind "dsn") as [-> | _];
       [ exfalso; apply Hnot; simpl; auto |];
       destruct (String.eqb_spec kind "tb") as [-> | _];
       [ exfalso; apply Hnot; simpl; auto |];
       destruct (String.eqb_spec kind "self") as [-> | _];
       [ exfalso; apply Hnot; simpl; auto |];
       reflexivity ]).
Qed.

Lemma source_dir_known_kinds_witness :
  Manifest.get_source_dir ex_manifest_hdl_sim "none"
    = Err (KeyError (PStr "none")) /\
  exists dir, Manifest.get_source_dir ex_manifest_hdl_sim "tb" = Ok dir.
Proof.
  destruct (source_dir_known_kinds ex_doc_hdl_sim ex_root
              (m := ex_manifest_hdl_sim)
              (fs := FolderStructure.mk (PStr "hdl_sim")
                       [("dsn", ".."); ("tb", "."); ("self", EmptyString)])
              "none" eq_refl eq_refl) as [_ Hnone].
  destruct (source_dir_known_kinds ex_doc_hdl_sim ex_root
              (m := ex_manifest_hdl_sim)
              (fs := FolderStructure.mk (PStr "hdl_sim")
                       [("dsn", ".."); ("tb", "."); ("self", EmptyString)])
              "tb" eq_refl eq_refl) as [Htb _].
  split.
  - apply Hnone. simpl. intros [H | [H | [H | []]]]; discriminate H.
  - apply Htb. simpl. auto.
Defined.

(** ** The file lists of a built manifest *)

(** X4: construction makes exactly one FileList per key of [files], in
    the order of the keys, no kind twice, and each FileList holds the
    value the document has under its kind, unchanged. *)
Theorem file_lists_one_per_kind (d : pydict) (root : Path) (m : Manifest.t) :
  Manifest.init d root = Ok m ->
  exists fd,
    dict_get "files" d = Some (PDict fd) /\
    map FileList.kind (Manifest.file_lists m) = dict_keys fd /\
    NoDup (map FileList.kind (Manifest.file_lists m)) /\
    forall fl, In fl (Manifest.file_lists m) ->
               dict_get (FileList.kind fl) fd = Some (FileList.files fl).
Proof.
  intros Hinit.
  destruct (init_inv _ _ Hinit) as [nm [fd [_ [Hf [_ [_ [Hk Hall]]]]]]].
  exists fd. split; [exact Hf |]. split; [exact Hk |]. split.
  - rewrite Hk. apply dict_keys_NoDup.
  - intros fl Hin. rewrite Forall_forall in Hall.
    destruct (Hall fl Hin) as [Hsub _].
    unfold py_subscript, dict_subscript in Hsub.
    destruct (dict_get (FileList.kind fl) fd); [| discriminate Hsub].
    injection Hsub as ->. reflexivity.
Qed.

Lemma file_lists_one_per_kind_witness :
  exists fd,
    dict_get "files" ex_doc_hdl_sim = Some (PDict fd) /\
    map FileList.kind (Manifest.file_lists ex_manifest_hdl_sim)
      = dict_keys fd /\
    NoDup (map FileList.kind (Manifest.file_lists ex_manifest_hdl_sim)) /\
    forall fl, In fl (Manifest.file_lists ex_manifest_hdl_sim) ->
               dict_get (FileList.kind fl) fd = Some (FileList.files fl).
Proof.
  apply (file_lists_one_per_kind ex_doc_hdl_sim ex_root). reflexivity.
Defined.

(** X5: a manifest built from a document stores the document's name and
    the given root; without [supported_simulators] it prefers "msim",
    and [get_max_threads] is the declared [max_threads], 5 without one. *)
Theorem undeclared_defaults (d : pydict) (root : Path) (m : Manifest.t) :
  Manifest.init d root = Ok m ->
  Manifest.root_dir m = root /\
  dict_get "name" d = Some (Manifest.name m) /\
  (dict_get "supported_simulators" d = None ->
   Manifest.get_preferred_simulator m = Ok (Some "msim")) /\
  (dict_get "max_threads" d = None ->
   Manifest.get_max_threads m = PInt 5) /\
  (forall n, dict_get "max_threads" d = Some n ->
             Manifest.get_max_threads m = n).
Proof.
  intros Hinit.
  destruct (init_inv _ _ Hinit) as [nm [fd [Hname [_ [Hroot [Hnm _]]]]]].
  destruct (init_fields _ _ Hinit) as [_ [_ [_ [_ [Hsup Hmax]]]]].
  unfold Manifest.get_preferred_simulator, Manifest.get_max_threads.
  rewrite Hsup, Hmax. unfold Manifest.get_or.
  split; [exact Hroot |]. split; [congruence |].
  split; [| split].
  - intros ->. reflexivity.
  - intros ->. reflexivity.
  - intros n ->. reflexivity.
Qed.

Lemma undeclared_defaults_witness :
  Manifest.get_preferred_simulator ex_manifest_hdl_sim = Ok (Some "msim") /\
  Manifest.get_max_threads ex_manifest_hdl_sim = PInt 5.
Proof.
  destruct (undeclared_defaults ex_doc_hdl_sim ex_root
              (m := ex_manifest_hdl_sim) eq_refl)
    as [_ [_ [Hsim [Hmax _]]]].
  split; [apply Hsim | apply Hmax]; reflexivity.
Defined.

(** ** Ill-typed documents *)

(** X6: when the document has [name], no folder structure or one of the
    table, and a value under [files] that is no mapping (null, a list, a
    string, a number), construction raises [AttributeError]. *)
Theorem files_not_mapping_raises (d : pydict) (root : Path) (v : pyval) :
  dict_get "name" d <> None ->
  known_or_absent_structure d = true ->
  dict_get "files" d = Some v ->
  (forall fd, v <> PDict fd) ->
  Manifest.init d root = Err AttributeError.
Proof.
  intros Hname Hknown Hfiles Hnot.
  unfold Manifest.init, dict_subscript.
  destruct (dict_get "name" d) as [nm |]; [| congruence]. simpl.
  destruct (known_structure_init d Hknown) as [fs ->]. simpl.
  rewrite Hfiles. simpl.
  destruct v as [| b | z | s | l | fd]; try reflexivity.
  exfalso. apply (Hnot fd). reflexivity.
Qed.

Lemma files_not_mapping_raises_witness :
  Manifest.init ex_doc_files_null ex_root = Err AttributeError.
Proof.
  apply (files_not_mapping_raises ex_doc_files_null ex_root (v := PNone));
    [discriminate | reflexivity | reflexivity | discriminate].
Defined.

Lemma build_file_lists_scalar fd ds st : forall kinds acc,
  is_scalar st = true ->
  (forall kind, In kind kinds -> dict_mem kind fd = true) ->
  if forallb (String.eqb "tb") kinds
  then exists fls, Manifest.build_file_lists (PDict fd) ds st kinds acc
                   = Ok fls
  else Manifest.build_file_lists (PDict fd) ds st kinds acc = Err TypeError.
Proof.
  induction kinds as [| kind rest IH]; intros acc Hst Hmem.
  - eexists. reflexivity.
  - cbn [forallb Manifest.build_file_lists py_subscript].
    unfold dict_subscript.
    pose proof (Hmem kind (or_introl eq_refl)) as Hk. unfold dict_mem in Hk.
    destruct (dict_get kind fd) as [files |]; [| discriminate Hk].
    cbn [bind].
    unfold Manifest.kind_standard. rewrite (String.eqb_sym kind "tb").
    destruct (String.eqb "tb" kind); cbn [bind andb].
    + apply IH; [exact Hst | intros; apply Hmem; right; assumption].
    + destruct st; try discriminate Hst; reflexivity.
Qed.

(** X7: when [standards] is a number or a truth value (and the document
    has [name], a mapping under [files], and no or a known folder
    structure), construction succeeds if every declared kind is "tb" and
    raises [TypeError] as soon as another kind is declared. *)
Theorem scalar_standards (d : pydict) (root : Path) (nm st : pyval)
    (fd : pydict) :
  dict_get "name" d = Some nm ->
  known_or_absent_structure d = true ->
  dict_get "files" d = Some (PDict fd) ->
  dict_get "standards" d = Some st ->
  is_scalar st = true ->
  if forallb (String.eqb "tb") (dict_keys fd)
  then exists m, Manifest.init d root = Ok m
  else Manifest.init d root = Err TypeError.
Proof.
  intros Hname Hknown Hfiles Hst Hscalar.
  unfold Manifest.init, dict_subscript. rewrite Hname, Hfiles.
  cbn [bind].
  destruct (known_structure_init d Hknown) as [fs ->]. cbn [bind py_keys].
  cbv zeta.
  assert (Hget : Manifest.get_or d "standards" PNone = st).
  { unfold Manifest.get_or. rewrite Hst. reflexivity. }
  rewrite Hget.
  pose proof (build_file_lists_scalar fd
                (Manifest.get_or d "standard" (PStr "VHDL")) st
                (dict_keys fd) [] Hscalar
                (fun kind Hin => proj1 (dict_keys_mem fd kind) Hin)) as Hb.
  revert Hb. destruct (forallb (String.eqb "tb") (dict_keys fd)).
  - intros [fls ->]. cbn [bind]. eexists. reflexivity.
  - intros ->. reflexivity.
Qed.

Lemma scalar_standards_witness :
  (exists m, Manifest.init ex_doc_tb_only ex_root = Ok m) /\
  Manifest.init ex_doc_int_standards ex_root = Err TypeError.
Proof.
  split.
  - apply (scalar_standards ex_doc_tb_only ex_root
             (nm := PStr "blk") (st := PInt 2008)
             (fd := [("tb", PList [PStr "t.vhd"])]));
      reflexivity.
  - apply (scalar_standards ex_doc_int_standards ex_root
             (nm := PStr "blk") (st := PInt 2008)
             (fd := [("tb", PList [PStr "t.vhd"]);
                     ("dsn", PList [PStr "a.vhd"])]));
      reflexivity.
Defined.

(** ** When [get_all_files] returns *)

Lemma mapM_Forall2 (A B : Type) (f : A -> result B) : forall l bs,
  mapM f l = Ok bs -> Forall2 (fun a b => f a = Ok b) l bs.
Proof.
  induction l as [| a rest IH]; simpl; intros bs H.
  - injection H as <-. constructor.
  - bind_inv H as b Hb. bind_inv H as bs' Hbs. injection H as <-.
    constructor; [exact Hb | apply IH; exact Hbs].
Qed.

Lemma Forall2_In_l (A B : Type) (R : A -> B -> Prop) : forall l l' a,
  Forall2 R l l' -> In a l -> exists b, In b l' /\ R a b.
Proof.
  induction 1 as [| x y l l' Hxy _ IH]; intros Hin.
  - destruct Hin.
  - destruct Hin as [<- | Hin].
    + exists y. simpl. auto.
    + destruct (IH Hin) as [b [Hb HR]]. exists b. simpl. auto.
Qed.

Lemma extend_all_mapM (m : Manifest.t) : forall fls ret,
  Manifest.extend_all m fls ret
  = (pss <- mapM (Manifest.file_list_paths m) fls ;; Ok (ret ++ concat pss)).
Proof.
  induction fls as [| fl rest IH]; simpl; intros ret.
  - rewrite app_nil_r. reflexivity.
  - destruct (Manifest.file_list_paths m fl) as [paths | e]; simpl;
      [| reflexivity].
    rewrite IH.
    destruct (mapM (Manifest.file_list_paths m) rest) as [pss | e]; simpl;
      [| reflexivity].
    rewrite app_assoc. reflexivity.
Qed.

Lemma truediv_Ok_inv (dir : Path) (v : pyval) (p : Path) :
  truediv dir v = Ok p -> exists s, v = PStr s /\ p = joinpath dir s.
Proof.
  destruct v; simpl; try discriminate.
  intros H. injection H as <-. eexists. auto.
Qed.

Lemma file_list_paths_inv (m : Manifest.t) (fl : FileList.t)
    (ps : list Path) :
  Manifest.file_list_paths m fl = Ok ps ->
  exists dir elems,
    Manifest.get_source_dir m (FileList.kind fl) = Ok dir /\
    py_iter (FileList.files fl) = Ok elems /\
    Forall2 (fun v p => exists s, v = PStr s /\ p = joinpath dir s)
            elems ps.
Proof.
  unfold Manifest.file_list_paths. intros H.
  bind_inv H as dir Hdir. bind_inv H as elems Helems.
  exists dir, elems. split; [exact Hdir |]. split; [exact Helems |].
  apply mapM_Forall2 in H. clear Helems.
  induction H as [| v p l l' Hvp _ IH]; constructor.
  - apply truediv_Ok_inv. exact Hvp.
  - exact IH.
Qed.

(** X8: [get_all_files] returns only when every FileList, taken alone,
    yields its paths: its kind resolves to a source directory and its
    [files] can be iterated and holds only strings; the result is then
    the concatenation of the per-list results, and one list that fails
    makes the whole call fail. *)
Theorem get_all_files_all_or_nothing (m : Manifest.t) (paths : list Path) :
  Manifest.get_all_files m = Ok paths ->
  (exists pss,
     mapM (Manifest.file_list_paths m) (Manifest.file_lists m) = Ok pss /\
     paths = concat pss) /\
  forall fl, In fl (Manifest.file_lists m) ->
    exists dir elems,
      Manifest.get_source_dir m (FileList.kind fl) = Ok dir /\
      py_iter (FileList.files fl) = Ok elems /\
      forall v, In v elems -> exists s, v = PStr s.
Proof.
  unfold Manifest.get_all_files. rewrite extend_all_mapM. intros H.
  bind_inv H as pss Hpss. injection H as <-. simpl.
  split; [exists pss; auto |].
  intros fl Hin.
  destruct (Forall2_In_l fl (mapM_Forall2 _ _ Hpss) Hin) as [ps [_ Hps]].
  destruct (file_list_paths_inv _ _ Hps) as [dir [elems [Hd [He Hall]]]].
  exists dir, elems. split; [exact Hd |]. split; [exact He |].
  intros v Hv. destruct (Forall2_In_l v Hall Hv) as [p [_ [s [Hs _]]]].
  exists s. exact Hs.
Qed.

Lemma get_all_files_all_or_nothing_witness :
  exists pss,
    mapM (Manifest.file_list_paths ex_manifest_repeat)
         (Manifest.file_lists ex_manifest_repeat) = Ok pss /\
    [ mkPath "/" ["work"; "blk"; "src"; "dsn"; "a.vhd"];
      mkPath "/" ["work"; "blk"; "src"; "dsn"; "a.vhd"];
      mkPath "/" ["work"; "blk"; "a.vhd"] ] = concat pss.
Proof.
  apply (get_all_files_all_or_nothing ex_manifest_repeat). reflexivity.
Defined.

(** ** Library names across blocks *)

(** X11: for one FileList, two block names that get the same library
    name are the same block name. *)
Theorem lib_name_injective_in_block (fl : FileList.t) (b1 b2 n : string) :
  FileList.get_lib_name fl b1 = Ok n ->
  FileList.get_lib_name fl b2 = Ok n ->
  b1 = b2.
Proof.
  unfold FileList.get_lib_name.
  destruct (dict_get (FileList.kind fl) FileList.kinds) as [suffix |];
    [| discriminate].
  intros H1 H2. injection H1 as <-. injection H2 as H2.
  symmetry. exact (append_inj_r _ _ _ H2).
Qed.

Lemma lib_name_injective_in_block_witness :
  FileList.get_lib_name (FileList.mk "dsn" PNone PNone) "blk"
    = Ok "blk_dsn" /\
  "blk" = "blk".
Proof.
  split; [reflexivity |].
  apply (lib_name_injective_in_block (FileList.mk "dsn" PNone PNone)
           "blk" "blk" (n := "blk_dsn"));
    reflexivity.
Defined.

(** X12: library names are not unique across blocks: for every block
    name, the "none" list of the different block whose name adds "_dsn"
    (or "_tb", "_lib") and the dsn (or tb, self) list of the block
    itself both get that longer name as their library name. *)
Theorem lib_name_collides_across_blocks (blk_name : string)
    (f1 s1 f2 s2 : pyval) :
  ((blk_name ++ "_dsn")%string <> blk_name /\
   FileList.get_lib_name (FileList.mk "none" f1 s1) (blk_name ++ "_dsn")
     = Ok (blk_name ++ "_dsn")%string /\
   FileList.get_lib_name (FileList.mk "dsn" f2 s2) blk_name
     = Ok (blk_name ++ "_dsn")%string) /\
  ((blk_name ++ "_tb")%string <> blk_name /\
   FileList.get_lib_name (FileList.mk "none" f1 s1) (blk_name ++ "_tb")
     = Ok (blk_name ++ "_tb")%string /\
   FileList.get_lib_name (FileList.mk "tb" f2 s2) blk_name
     = Ok (blk_name ++ "_tb")%string) /\
  ((blk_name ++ "_lib")%string <> blk_name /\
   FileList.get_lib_name (FileList.mk "none" f1 s1) (blk_name ++ "_lib")
     = Ok (blk_name ++ "_lib")%string /\
   FileList.get_lib_name (FileList.mk "self" f2 s2) blk_name
     = Ok (blk_name ++ "_lib")%string).
Proof.
  assert (Hlonger : forall suffix,
            suffix <> EmptyString ->
            (blk_name ++ suffix)%string <> blk_name).
  { intros suffix Hne E. apply (f_equal String.length) in E.
    rewrite string_length_app in E.
    destruct suffix; [apply Hne; reflexivity | simpl in E; lia]. }
  unfold FileList.get_lib_name. simpl.
  rewrite !string_app_nil_r.
  repeat split; try reflexivity; apply Hlonger; discriminate.
Qed.

(** ** A string for [supported_simulators] *)

(** X13: when [supported_simulators] is one string instead of a list,
    membership is the substring test: the call raises nothing and never
    returns "msim_free", because a string that contains "msim_free"
    contains "msim", which comes first. *)
Theorem string_supported_never_msim_free (m : Manifest.t) (h : string) :
  Manifest.supported_simulators m = PStr h ->
  exists r,
    Manifest.get_preferred_simulator m = Ok r /\
    r <> Some "msim_free" /\
    (str_contains "msim_free" h = true -> r <> None /\ r <> Some "xsim").
Proof.
  intros Hsup. unfold Manifest.get_preferred_simulator. rewrite Hsup.
  unfold Manifest.preference_order, Manifest.first_supported, py_contains.
  assert (Hmono : str_contains "msim_free" h = true ->
                  str_contains "msim" h = true).
  { apply (str_contains_app_l "msim" "_free"). }
  cbv [bind].
  destruct (str_contains "ghdl" h);
    [eexists; repeat split; discriminate |].
  destruct (str_contains "qsim" h);
    [eexists; repeat split; discriminate |].
  destruct (str_contains "msim" h);
    [eexists; repeat split; discriminate |].
  destruct (str_contains "msim_free" h).
  - discriminate (Hmono eq_refl).
  - destruct (str_contains "xsim" h); eexists;
      (split; [reflexivity | split; [discriminate | discriminate]]).
Qed.

Lemma string_supported_never_msim_free_witness :
  Manifest.get_preferred_simulator ex_manifest_sim_string
    = Ok (Some "msim") /\
  exists r,
    Manifest.get_preferred_simulator ex_manifest_sim_string = Ok r /\
    r <> Some "msim_free".
Proof.
  split; [reflexivity |].
  destruct (string_supported_never_msim_free ex_manifest_sim_string
              (h := "msim_free") eq_refl) as [r [Hr [Hne _]]].
  exists r. auto.
Defined.

(** ** More facts about dictionaries *)

Lemma dict_get_app (V : Type) (k : string) (a b : list (string * V)) :
  dict_get k (a ++ b)
  = match dict_get k a with
    | Some v => Some v
    | None => dict_get k b
    end.
Proof.
  induction a as [| [k' v'] a IH]; simpl; [reflexivity |].
  destruct (String.eqb k k'); [reflexivity | exact IH].
Qed.

Lemma dict_get_None_notin (V : Type) (k : string) (d : list (string * V)) :
  dict_get k d = None <-> ~ In k (map fst d).
Proof.
  induction d as [| [k' v'] d IH]; simpl.
  - split; [intros _ [] | reflexivity].
  - destruct (String.eqb_spec k k') as [-> | Hne].
    + split; [discriminate | intros H; exfalso; apply H; auto].
    + rewrite IH. split.
      * intros H [E | Hin]; [congruence | exact (H Hin)].
      * intros H Hin. apply H. auto.
Qed.

Lemma dict_get_In (V : Type) (k : string) (v : V) :
  forall d : list (string * V),
  NoDup (map fst d) -> In (k, v) d -> dict_get k d = Some v.
Proof.
  induction d as [| [k' v'] d IH]; simpl; intros Hnd Hin; [destruct Hin |].
  inversion Hnd as [| ? ? Hnotin Hnd']; subst.
  destruct Hin as [E | Hin].
  - injection E as -> ->. rewrite String.eqb_refl. reflexivity.
  - destruct (String.eqb_spec k k') as [-> | _].
    + exfalso. apply Hnotin. apply in_map_iff. exists (k', v). auto.
    + apply IH; assumption.
Qed.

Lemma dict_set_fresh (V : Type) (k : string) (v : V) :
  forall d : list (string * V),
  dict_get k d = None -> dict_set k v d = d ++ [(k, v)].
Proof.
  induction d as [| [k' v'] d IH]; simpl; intros H; [reflexivity |].
  destruct (String.eqb k k'); [discriminate H |].
  rewrite (IH H). reflexivity.
Qed.

Lemma dict_set_last (V : Type) (k : string) (v v' : V) :
  forall d : list (string * V),
  dict_get k d = None -> dict_set k v' (d ++ [(k, v)]) = d ++ [(k, v')].
Proof.
  induction d as [| [k0 v0] d IH]; simpl; intros H.
  - rewrite String.eqb_refl. reflexivity.
  - destruct (String.eqb k k0); [discriminate H |].
    rewrite (IH H). reflexivity.
Qed.

Lemma map_fst_filter_key (V : Type) (k : string) (l : list (string * V)) :
  map fst (filter (fun kv => negb (String.eqb (fst kv) k)) l)
  = filter (fun k' => negb (String.eqb k' k)) (map fst l).
Proof.
  induction l as [| [k' v'] l IH]; simpl; [reflexivity |].
  destruct (String.eqb k' k); simpl; [| rewrite IH]; auto.
Qed.

Lemma dict_items_keys (V : Type) (d : list (string * V)) :
  map fst (dict_items d) = dict_keys d.
Proof.
  induction d as [| [k v] d IH]; simpl; [reflexivity |].
  rewrite map_fst_filter_key, IH. reflexivity.
Qed.

Lemma dict_items_NoDup (V : Type) (d : list (string * V)) :
  NoDup (map fst (dict_items d)).
Proof.
  rewrite dict_items_keys. apply dict_keys_NoDup.
Qed.

Lemma dict_get_filter_neq (V : Type) (k k' : string) :
  forall l : list (string * V),
  k <> k' ->
  dict_get k (filter (fun kv => negb (String.eqb (fst kv) k')) l)
  = dict_get k l.
Proof.
  induction l as [| [k0 v0] l IH]; simpl; intros Hne; [reflexivity |].
  destruct (String.eqb_spec k0 k') as [-> | Hne0]; simpl.
  - destruct (String.eqb_spec k k'); [congruence | apply IH; exact Hne].
  - destruct (String.eqb k k0); [reflexivity | apply IH; exact Hne].
Qed.

Lemma dict_items_get (V : Type) (k : string) (d : list (string * V)) :
  dict_get k (dict_items d) = dict_get k d.
Proof.
  induction d as [| [k' v'] d IH]; simpl; [reflexivity |].
  destruct (String.eqb_spec k k') as [-> | Hne]; [reflexivity |].
  rewrite dict_get_filter_neq by exact Hne. exact IH.
Qed.

Lemma filter_neq_notin (k : string) : forall l : list string,
  ~ In k l -> filter (fun k' => negb (String.eqb k' k)) l = l.
Proof.
  induction l as [| x l IH]; simpl; intros H; [reflexivity |].
  destruct (String.eqb_spec x k) as [-> | _]; simpl.
  - exfalso. apply H. auto.
  - rewrite IH; [reflexivity | intros Hin; apply H; auto].
Qed.

Lemma dict_keys_NoDup_id (V : Type) : forall d : list (string * V),
  NoDup (map fst d) -> dict_keys d = map fst d.
Proof.
  induction d as [| [k v] d IH]; simpl; intros H; [reflexivity |].
  inversion H as [| ? ? Hnotin Hnd]; subst.
  rewrite (IH Hnd), (@filter_neq_notin k (map fst d) Hnotin). reflexivity.
Qed.

(** ** The standard handed to the simulator *)

(** X14: for a manifest built from a document, [to_vunit_vhdl_standard]
    of a testbench list's standard is "2008"; when the document declares
    neither [standard] nor [standards], it is "93" for every other
    list. *)
Theorem vunit_standard_of_built_lists (d : pydict) (root : Path)
    (m : Manifest.t) (fl : FileList.t) :
  Manifest.init d root = Ok m ->
  In fl (Manifest.file_lists m) ->
  (FileList.kind fl = "tb" ->
   VunitHelper.to_vunit_vhdl_standard (FileList.standard fl) = "2008") /\
  (FileList.kind fl <> "tb" ->
   dict_get "standard" d = None ->
   dict_get "standards" d = None ->
   VunitHelper.to_vunit_vhdl_standard (FileList.standard fl) = "93").
Proof.
  intros Hinit Hin. rewrite (built_standard d root fl Hinit Hin). split.
  - intros ->. reflexivity.
  - intros Hne Hs Hss. apply String.eqb_neq in Hne. rewrite Hne.
    unfold spec_standard, declared_standard. rewrite Hs, Hss. reflexivity.
Qed.

Lemma vunit_standard_of_built_lists_witness :
  VunitHelper.to_vunit_vhdl_standard (PStr "VHDL 2008") = "2008" /\
  VunitHelper.to_vunit_vhdl_standard (PStr "VHDL") = "93".
Proof.
  split.
  - apply (proj1 (vunit_standard_of_built_lists ex_doc_hdl_sim ex_root
                    (m := ex_manifest_hdl_sim)
                    (FileList.mk "tb" (PList [PStr "core_tb.vhd"])
                       (PStr "VHDL 2008"))
                    eq_refl (or_intror (or_introl eq_refl)))).
    reflexivity.
  - apply (proj2 (vunit_standard_of_built_lists ex_doc_hdl_sim ex_root
                    (m := ex_manifest_hdl_sim)
                    (FileList.mk "self" PNone (PStr "VHDL"))
                    eq_refl
                    (or_intror (or_intror (or_introl eq_refl)))));
      [discriminate | reflexivity | reflexivity].
Defined.

(** ** Test configurations *)

Section ConfigFacts.
Variable V : Type.

Lemma product_In (pools : list (list V)) : forall p,
  In p (VunitHelper.product pools) <->
  Forall2 (fun x pool => In x pool) p pools.
Proof.
  induction pools as [| pool rest IH]; simpl; intros p.
  - split.
    + intros [<- | []]. constructor.
    + intros H. inversion H. auto.
  - rewrite in_flat_map. split.
    + intros [x [Hx Hp]]. apply in_map_iff in Hp.
      destruct Hp as [q [<- Hq]]. constructor; [exact Hx |].
      apply IH. exact Hq.
    + intros H. inversion H as [| x pool' q rest' Hx Hq]; subst.
      exists x. split; [exact Hx |]. apply in_map. apply IH. exact Hq.
Qed.

Lemma product_length (pools : list (list V)) :
  length (VunitHelper.product pools)
  = fold_right (fun pool n => length pool * n) 1 pools.
Proof.
  induction pools as [| pool rest IH]; simpl; [reflexivity |].
  rewrite <- IH.
  apply flat_map_constant_length. intros x _. apply length_map.
Qed.

Lemma label_from_combine : forall keys pre suf (acc : list (string * V)),
  NoDup keys ->
  (forall k, In k keys -> dict_get k acc = None) ->
  length suf = length keys ->
  VunitHelper.label_from (length pre) keys (pre ++ suf) acc
  = Some (acc ++ combine keys suf).
Proof.
  induction keys as [| key rest IH]; intros pre suf acc Hnd Hfresh Hlen.
  - simpl. rewrite app_nil_r. reflexivity.
  - destruct suf as [| v suf]; [discriminate Hlen |].
    inversion Hnd as [| ? ? Hnotin Hnd']; subst.
    cbn [VunitHelper.label_from].
    rewrite nth_error_app2 by lia. rewrite Nat.sub_diag. cbn [nth_error].
    rewrite (dict_set_fresh key v acc (Hfresh key (or_introl eq_refl))).
    replace (pre ++ v :: suf) with ((pre ++ [v]) ++ suf)
      by (rewrite <- app_assoc; reflexivity).
    replace (S (length pre)) with (length (pre ++ [v]))
      by (rewrite length_app; simpl; lia).
    rewrite IH.
    + rewrite <- app_assoc. reflexivity.
    + exact Hnd'.
    + intros k Hk. rewrite dict_get_app.
      rewrite (Hfresh k (or_intror Hk)). simpl.
      destruct (String.eqb_spec k key) as [-> | _];
        [contradiction | reflexivity].
    + simpl in Hlen. lia.
Qed.

Lemma collect_configs_map (keys : list string) :
  NoDup keys ->
  forall permutations configs,
  (forall p, In p permutations -> length p = length keys) ->
  VunitHelper.collect_configs keys permutations configs
  = Some (configs ++ map (@combine string V keys) permutations).
Proof.
  intros Hnd. induction permutations as [| p rest IH];
    intros configs Hlen; simpl.
  - rewrite app_nil_r. reflexivity.
  - assert (Hl : VunitHelper.label_from 0 keys p []
                 = Some (combine keys p)).
    { apply (@label_from_combine keys [] p [] Hnd);
        [reflexivity | apply Hlen; left; reflexivity]. }
    rewrite Hl. rewrite IH by (intros; apply Hlen; right; assumption).
    rewrite <- app_assoc. reflexivity.
Qed.

Lemma gen_configs_eq (options : list (string * list V)) :
  VunitHelper.gen_configs options
  = Some (map (@combine string V (dict_keys options))
              (VunitHelper.product (map snd (dict_items options)))).
Proof.
  unfold VunitHelper.gen_configs.
  rewrite collect_configs_map.
  - reflexivity.
  - apply dict_keys_NoDup.
  - intros p Hp. apply product_In in Hp.
    apply Forall2_length in Hp. rewrite Hp, length_map.
    rewrite <- dict_items_keys, length_map. reflexivity.
Qed.

Lemma combine_Forall2_In (k : string) (v : V) :
  forall (items : list (string * list V)) (p : list V),
  Forall2 (fun x pool => In x pool) p (map snd items) ->
  In (k, v) (combine (map fst items) p) ->
  exists pool, In (k, pool) items /\ In v pool.
Proof.
  induction items as [| [k0 pool0] items IH]; simpl; intros p Hp Hin.
  - destruct Hin.
  - inversion Hp as [| x pool' q rest' Hx Hq]; subst.
    simpl in Hin. destruct Hin as [E | Hin].
    + injection E as <- <-. exists pool0. auto.
    + destruct (IH q Hq Hin) as [pool [H1 H2]]. exists pool. auto.
Qed.

(** X15: [gen_configs] raises nothing; it returns as many configurations
    as the product of the numbers of options, each with exactly the
    keys of the options in their order, and each value taken from the
    options of its key.  With one empty list of options there is no
    configuration; with no key at all there is one, empty. *)
Theorem gen_configs_shape (options : list (string * list V)) :
  exists configs,
    VunitHelper.gen_configs options = Some configs /\
    length configs
      = fold_right (fun kv n => length (snd kv) * n) 1
                   (dict_items options) /\
    forall c, In c configs ->
      map fst c = dict_keys options /\
      forall k v, In (k, v) c ->
        exists pool, dict_get k options = Some pool /\ In v pool.
Proof.
  eexists. split; [apply gen_configs_eq |]. split.
  - rewrite length_map, product_length.
    induction (dict_items options) as [| kv l IH]; simpl;
      [| rewrite IH]; reflexivity.
  - intros c Hc. apply in_map_iff in Hc. destruct Hc as [p [<- Hp]].
    apply product_In in Hp. split.
    + pose proof (Forall2_length Hp) as Hlen.
      rewrite length_map in Hlen.
      rewrite <- (dict_items_keys options).
      clear Hp. revert p Hlen.
      induction (dict_items options) as [| kv l IH]; intros [| x p] Hlen;
        simpl in *; try discriminate; [reflexivity |].
      f_equal. apply IH. lia.
    + intros k v Hin. rewrite <- (dict_items_keys options) in Hin.
      destruct (@combine_Forall2_In k v (dict_items options) p Hp Hin)
        as [pool [H1 H2]].
      exists pool. split; [| exact H2].
      rewrite <- dict_items_get.
      apply dict_get_In; [apply dict_items_NoDup | exact H1].
Qed.

(** X16: [gen_configs] misses no combination: for every choice of one
    option per key, the configuration that maps each key to its chosen
    option is among the results. *)
Theorem gen_configs_complete (options : list (string * list V))
    (choice : list V) :
  Forall2 (fun v kv => In v (snd kv)) choice (dict_items options) ->
  exists configs,
    VunitHelper.gen_configs options = Some configs /\
    In (combine (dict_keys options) choice) configs.
Proof.
  intros Hchoice. eexists. split; [apply gen_configs_eq |].
  apply in_map. apply product_In.
  induction Hchoice; simpl; constructor; assumption.
Qed.

(** X17: the name [add_config] gives a configuration is its entries,
    each written key=value, joined by commas in the order of the keys,
    with no comma after the last one. *)
Theorem add_config_name_is_join (str : V -> string)
    (config : list (string * V)) :
  fst (VunitHelper.add_config str config)
  = String.concat ","
      (map (fun kv => (fst kv ++ "=" ++ str (snd kv))%string)
           (dict_items config)).
Proof.
  unfold VunitHelper.add_config. cbn [fst].
  generalize (dict_items config). intros items.
  assert (Hgen : forall items i acc,
    VunitHelper.config_name_from str i
      (i + Z.of_nat (length items)) items acc
    = (acc ++ String.concat ","
         (map (fun kv => (fst kv ++ "=" ++ str (snd kv))%string)
              items))%string).
  { clear items. induction items as [| [k v] rest IH]; intros i acc.
    - simpl. rewrite string_app_nil_r. reflexivity.
    - cbn [VunitHelper.config_name_from map fst snd].
      destruct rest as [| kv2 rest'].
      + replace (i + Z.of_nat (length [(k, v)]) - 1)%Z with i
          by (simpl; lia).
        rewrite Z.eqb_refl. reflexivity.
      + destruct (Z.eqb_spec i
                    (i + Z.of_nat (length ((k, v) :: kv2 :: rest')) - 1))
          as [E | _].
        * exfalso. cbn [length] in E. lia.
        * replace (i + Z.of_nat (length ((k, v) :: kv2 :: rest')))%Z
            with ((i + 1) + Z.of_nat (length (kv2 :: rest')))%Z
            by (cbn [length]; lia).
          rewrite IH. cbn [String.concat map].
          rewrite !string_app_assoc. reflexivity. }
  exact (Hgen items 0%Z EmptyString).
Qed.

End ConfigFacts.

Lemma gen_configs_complete_witness :
  exists configs,
    VunitHelper.gen_configs [("width", [8; 16]); ("mode", [0; 1; 2])]
      = Some configs /\
    In [("width", 16); ("mode", 1)] configs.
Proof.
  apply (gen_configs_complete [("width", [8; 16]); ("mode", [0; 1; 2])]
           (choice := [16; 1])).
  cbv [dict_items filter fst negb String.eqb Ascii.eqb Bool.eqb].
  constructor; [simpl; auto |].
  constructor; [simpl; auto |].
  constructor.
Defined.

(** ** The vhdl_ls dictionary *)

Lemma fill_libraries_map : forall (items : list (string * pyval))
    (libraries : pydict),
  NoDup (map fst items) ->
  (forall k, In k (map fst items) -> dict_get k libraries = None) ->
  VhdlLsUtil.fill_libraries items libraries
  = Ok (libraries ++ map (fun kv => (fst kv, files_entry (snd kv))) items).
Proof.
  induction items as [| [lib files] rest IH]; intros libraries Hnd Hfresh.
  - simpl. rewrite app_nil_r. reflexivity.
  - inversion Hnd as [| ? ? Hnotin Hnd']; subst.
    pose proof (Hfresh lib (or_introl eq_refl)) as Hlib.
    cbn [VhdlLsUtil.fill_libraries].
    rewrite (dict_set_fresh lib (PDict []) libraries Hlib).
    unfold dict_subscript. rewrite dict_get_app, Hlib.
    cbn [dict_get]. rewrite String.eqb_refl. cbn [bind VhdlLsUtil.py_setitem].
    rewrite (dict_set_last lib (PDict []) _ libraries Hlib).
    rewrite IH.
    + cbn [map fst snd dict_set]. rewrite <- app_assoc. reflexivity.
    + exact Hnd'.
    + intros k Hk. rewrite dict_get_app.
      rewrite (Hfresh k (or_intror Hk)). cbn [dict_get].
      destruct (String.eqb_spec k lib) as [-> | _];
        [contradiction | reflexivity].
Qed.

Lemma dict_get_map_entry (k : string) : forall items : list (string * pyval),
  dict_get k (map (fun kv => (fst kv, files_entry (snd kv))) items)
  = option_map files_entry (dict_get k items).
Proof.
  induction items as [| [k' v'] items IH]; simpl; [reflexivity |].
  destruct (String.eqb k k'); [reflexivity | exact IH].
Qed.

(** X18: [to_vhdl_ls_dict] raises nothing and returns one key,
    "libraries", whose value has the libraries of the input in the same
    order; looking a library up and then its "files" gives back exactly
    the list the input holds for it, and no library is added. *)
Theorem to_vhdl_ls_dict_lookup (libs : pydict) :
  exists libraries,
    VhdlLsUtil.to_vhdl_ls_dict libs = Ok [("libraries", PDict libraries)] /\
    dict_keys libraries = dict_keys libs /\
    forall lib,
      dict_get lib libraries = option_map files_entry (dict_get lib libs).
Proof.
  exists (map (fun kv => (fst kv, files_entry (snd kv))) (dict_items libs)).
  split; [| split].
  - unfold VhdlLsUtil.to_vhdl_ls_dict.
    rewrite fill_libraries_map.
    + reflexivity.
    + apply dict_items_NoDup.
    + reflexivity.
  - rewrite dict_keys_NoDup_id.
    + rewrite map_map. cbn [fst]. apply dict_items_keys.
    + rewrite map_map. cbn [fst]. apply dict_items_NoDup.
  - intros lib. rewrite dict_get_map_entry, dict_items_get. reflexivity.
Qed.

(** ** The file list of the style checker *)

Section VsgFacts.
Variable pattern_matches : string -> string -> bool.
Variable exclude_patterns : option (list string).

Lemma visit_files_names (m : Manifest.t) (fl : FileList.t) (dir : Path) :
  Manifest.get_source_dir m (FileList.kind fl) = Ok dir ->
  forall names vsg_files,
  VsgUtil.visit_files pattern_matches m fl exclude_patterns
    (map PStr names) vsg_files
  = Ok (vsg_files
        ++ flat_map (vsg_entry pattern_matches exclude_patterns dir) names).
Proof.
  intros Hdir. induction names as [| s rest IH]; intros vsg_files.
  - simpl. rewrite app_nil_r. reflexivity.
  - cbn [map VsgUtil.visit_files flat_map].
    unfold VsgUtil.visit_file. cbn [to_path bind]. rewrite Hdir. cbn [bind].
    unfold vsg_entry.
    change (path_join dir (parse_path s)) with (joinpath dir s).
    destruct (VsgUtil.is_excluded pattern_matches exclude_patterns
                (joinpath dir s)); cbn [bind].
    + rewrite IH. reflexivity.
    + destruct (str_in (path_suffix (parse_path s)) [".vhd"]); cbn [bind];
        rewrite IH; [rewrite <- app_assoc |]; reflexivity.
Qed.

Lemma visit_file_lists_entries (m : Manifest.t) (dir_of : string -> Path)
    (names_of : FileList.t -> list string) :
  forall fls vsg_files,
  (forall fl, In fl fls ->
     (FileList.files fl = PNone /\ names_of fl = []) \/
     (FileList.files fl <> PNone /\
      py_iter (FileList.files fl) = Ok (map PStr (names_of fl)))) ->
  (forall fl, In fl fls -> names_of fl <> [] ->
     Manifest.get_source_dir m (FileList.kind fl)
       = Ok (dir_of (FileList.kind fl))) ->
  VsgUtil.visit_file_lists pattern_matches m exclude_patterns fls vsg_files
  = Ok (vsg_files
        ++ flat_map (vsg_entries pattern_matches exclude_patterns dir_of
                       names_of)
                    fls).
Proof.
  induction fls as [| fl rest IH]; intros vsg_files Hfiles Hdir.
  - simpl. rewrite app_nil_r. reflexivity.
  - cbn [VsgUtil.visit_file_lists flat_map].
    assert (Hone : VsgUtil.visit_file_list pattern_matches m
                     exclude_patterns fl vsg_files
                   = Ok (vsg_files
                         ++ vsg_entries pattern_matches exclude_patterns
                              dir_of names_of fl)).
    { unfold VsgUtil.visit_file_list, vsg_entries.
      destruct (Hfiles fl (or_introl eq_refl)) as [[-> ->] | [Hne Hl]].
      - simpl. rewrite app_nil_r. reflexivity.
      - assert (Hstep :
          VsgUtil.visit_file_list pattern_matches m exclude_patterns fl
            vsg_files
          = (elems <- py_iter (FileList.files fl) ;;
             VsgUtil.visit_files pattern_matches m fl exclude_patterns
               elems vsg_files)).
        { unfold VsgUtil.visit_file_list.
          destruct (FileList.files fl); try reflexivity.
          exfalso. apply Hne. reflexivity. }
        fold (VsgUtil.visit_file_list pattern_matches m exclude_patterns
                fl vsg_files).
        rewrite Hstep, Hl. cbn [bind].
        destruct (names_of fl) as [| s names] eqn:Hn.
        + simpl. rewrite app_nil_r. reflexivity.
        + apply visit_files_names.
          apply Hdir; [left; reflexivity | rewrite Hn; discriminate]. }
    rewrite Hone. cbn [bind].
    rewrite IH;
      [ rewrite <- app_assoc; reflexivity
      | intros; apply Hfiles; right; assumption
      | intros; apply Hdir; [right; assumption | assumption] ].
Qed.

End VsgFacts.

(** X19: for a manifest whose FileLists hold either [None] or a sequence
    of file names, and in which the kind of every list that has at least
    one name resolves to a source directory, [get_vsg_files] returns: a
    [None] list and an empty list add nothing (their own kind need not
    resolve), and each name of the other lists adds the joined path as a
    string when the name ends in ".vhd" and no pattern excludes it. *)
Theorem vsg_files_skip_absent_lists
    (pattern_matches : string -> string -> bool)
    (exclude_patterns : option (list string))
    (m : Manifest.t) (dir_of : string -> Path)
    (names_of : FileList.t -> list string) :
  (forall fl, In fl (Manifest.file_lists m) ->
     (FileList.files fl = PNone /\ names_of fl = []) \/
     FileList.files fl = PList (map PStr (names_of fl))) ->
  (forall fl, In fl (Manifest.file_lists m) -> names_of fl <> [] ->
     Manifest.get_source_dir m (FileList.kind fl)
       = Ok (dir_of (FileList.kind fl))) ->
  VsgUtil.get_vsg_files pattern_matches [m] exclude_patterns
  = Ok (flat_map
          (fun fl =>
             flat_map (vsg_entry pattern_matches exclude_patterns
                         (dir_of (FileList.kind fl)))
                      (names_of fl))
          (Manifest.file_lists m)).
Proof.
  intros Hfiles Hdir.
  unfold VsgUtil.get_vsg_files. cbn [VsgUtil.get_vsg_files_from].
  rewrite (visit_file_lists_entries pattern_matches exclude_patterns m
             dir_of names_of (Manifest.file_lists m) []).
  - reflexivity.
  - intros fl Hin. destruct (Hfiles fl Hin) as [H | H]; [left; exact H |].
    right. rewrite H. split; [discriminate | reflexivity].
  - exact Hdir.
Qed.

Lemma vsg_files_skip_absent_lists_witness :
  Manifest.get_source_dir ex_manifest_vsg "none"
    = Err (KeyError (PStr "none")) /\
  VsgUtil.get_vsg_files (fun _ _ => false) [ex_manifest_vsg] None
    = Ok ["/work/blk/src/dsn/core.vhd"].
Proof.
  split; [reflexivity |].
  rewrite (vsg_files_skip_absent_lists (fun _ _ => false) None
             ex_manifest_vsg
             (source_dir_or_root ex_manifest_vsg)
             (fun fl => str_names (FileList.files fl))).
  - reflexivity.
  - intros fl [<- | [<- | []]]; simpl; auto.
  - intros fl [<- | [<- | []]] H; [| reflexivity].
    exfalso. apply H. reflexivity.
Defined.

Lemma all_str_names (elems : list pyval) :
  (forall v, In v elems -> exists s, v = PStr s) ->
  map PStr (flat_map (fun x => match x with PStr s => [s] | _ => [] end)
                     elems) = elems.
Proof.
  induction elems as [| v rest IH]; intros H; [reflexivity |].
  destruct (H v (or_introl eq_refl)) as [s ->]. simpl.
  rewrite IH; [reflexivity | intros; apply H; right; assumption].
Qed.

Lemma vsg_entry_In pattern_matches exclude_patterns dir s x :
  In x (vsg_entry pattern_matches exclude_patterns dir s) ->
  x = path_str (joinpath dir s).
Proof.
  unfold vsg_entry.
  destruct (VsgUtil.is_excluded _ _ _); [intros [] |].
  destruct (str_in _ _); [| intros []].
  intros [<- | []]. reflexivity.
Qed.

(** X20: whenever [get_all_files] returns for a manifest,
    [get_vsg_files] returns for it too, and every entry of its list is
    the string of one of the paths [get_all_files] returns. *)
Theorem vsg_files_among_all_files
    (pattern_matches : string -> string -> bool)
    (exclude_patterns : option (list string))
    (m : Manifest.t) (paths : list Path) :
  Manifest.get_all_files m = Ok paths ->
  exists vsg_files,
    VsgUtil.get_vsg_files pattern_matches [m] exclude_patterns
      = Ok vsg_files /\
    forall x, In x vsg_files -> exists p, In p paths /\ x = path_str p.
Proof.
  intros Hall.
  unfold Manifest.get_all_files in Hall. rewrite extend_all_mapM in Hall.
  bind_inv Hall as pss Hpss. injection Hall as <-. cbn [app].
  pose proof (mapM_Forall2 _ _ Hpss) as HF.
  assert (Hfl : forall fl, In fl (Manifest.file_lists m) ->
            exists ps dir elems,
              In ps pss /\
              Manifest.get_source_dir m (FileList.kind fl) = Ok dir /\
              py_iter (FileList.files fl) = Ok elems /\
              Forall2 (fun v p => exists s, v = PStr s /\ p = joinpath dir s)
                      elems ps).
  { intros fl Hin.
    destruct (Forall2_In_l fl HF Hin) as [ps [Hps Hp]].
    destruct (file_list_paths_inv _ _ Hp) as [dir [elems [H1 [H2 H3]]]].
    exists ps, dir, elems. auto. }
  eexists. split.
  - unfold VsgUtil.get_vsg_files. cbn [VsgUtil.get_vsg_files_from].
    rewrite (visit_file_lists_entries pattern_matches exclude_patterns m
               (source_dir_or_root m)
               (fun fl => iter_names (FileList.files fl))
               (Manifest.file_lists m) []).
    + reflexivity.
    + intros fl Hin. right.
      destruct (Hfl fl Hin) as [ps [dir [elems [_ [_ [He Hf]]]]]].
      split.
      * intros E. rewrite E in He. discriminate He.
      * unfold iter_names, iter_elems. rewrite He. f_equal. symmetry.
        apply all_str_names. intros v Hv.
        destruct (Forall2_In_l v Hf Hv) as [p [_ [s [Hs _]]]].
        exists s. exact Hs.
    + intros fl Hin _.
      destruct (Hfl fl Hin) as [ps [dir [elems [_ [Hd _]]]]].
      unfold source_dir_or_root. rewrite Hd. reflexivity.
  - intros x Hx. cbn [app bind] in Hx.
    apply in_flat_map in Hx. destruct Hx as [fl [Hin Hx]].
    unfold vsg_entries in Hx.
    apply in_flat_map in Hx. destruct Hx as [s [Hs Hx]].
    apply vsg_entry_In in Hx.
    destruct (Hfl fl Hin) as [ps [dir [elems [Hps [Hd [He Hf]]]]]].
    unfold source_dir_or_root in Hx. rewrite Hd in Hx.
    assert (Hv : In (PStr s) elems).
    { unfold iter_names, iter_elems in Hs. rewrite He in Hs.
      apply in_flat_map in Hs. destruct Hs as [v [Hv Hsv]].
      destruct v; simpl in Hsv; try contradiction.
      destruct Hsv as [<- | []]. exact Hv. }
    destruct (Forall2_In_l (PStr s) Hf Hv) as [p [Hp [s' [Es ->]]]].
    injection Es as <-.
    exists (joinpath dir s). split; [| exact Hx].
    apply in_concat. exists ps. auto.
Qed.

Lemma vsg_files_among_all_files_witness :
  exists vsg_files,
    VsgUtil.get_vsg_files (fun _ _ => false) [ex_manifest_repeat] None
      = Ok vsg_files /\
    forall x, In x vsg_files ->
      exists p,
        In p [ mkPath "/" ["work"; "blk"; "src"; "dsn"; "a.vhd"];
               mkPath "/" ["work"; "blk"; "src"; "dsn"; "a.vhd"];
               mkPath "/" ["work"; "blk"; "a.vhd"] ] /\
        x = path_str p.
Proof.
  apply (vsg_files_among_all_files (fun _ _ => false) None
           ex_manifest_repeat).
  reflexivity.
Defined.

(** ** The standard handed to the synthesis tool *)

(** X21: in IP mode [get_standard] raises nothing and yields one of
    three strings; it is "{vhdlSource}" exactly when the suffix of the
    path is none of .svh, .vh, .v, .sv and the standard of the FileList
    is the string "VHDL"; any other standard of such a file, a number
    included, gives "{vhdlSource-2008}". *)
Theorem ip_standard_total (path : Path) (fl : FileList.t) :
  exists s,
    VivadoUtil.get_standard path fl true = Ok s /\
    In s ["{verilogSource}"; "{vhdlSource}"; "{vhdlSource-2008}"] /\
    (s = "{vhdlSource}" <->
     str_in (path_suffix path) [".svh"; ".vh"; ".v"; ".sv"] = false /\
     FileList.standard fl = PStr "VHDL").
Proof.
  unfold VivadoUtil.get_standard, VivadoUtil.get_ip_standard, str_in.
  cbn [existsb].
  destruct (String.eqb (path_suffix path) ".svh");
    destruct (String.eqb (path_suffix path) ".vh");
    destruct (String.eqb (path_suffix path) ".v");
    destruct (String.eqb (path_suffix path) ".sv");
    cbn [orb];
    try solve
      [ eexists; split; [reflexivity |];
        split; [simpl; auto |];
        split; [discriminate | intros [Hf _]; discriminate Hf] ].
  destruct (FileList.standard fl) as [| b | z | t | l | dd];
    cbn [py_str_eq];
    try solve
      [ eexists; split; [reflexivity |];
        split; [simpl; auto |];
        split; [discriminate | intros [_ Hf]; discriminate Hf] ].
  destruct (String.eqb_spec "VHDL" t) as [<- | Hne].
  - eexists. split; [reflexivity |]. split; [simpl; auto |].
    split; auto.
  - eexists. split; [reflexivity |]. split; [simpl; auto |].
    split; [discriminate |].
    intros [_ Hf]. injection Hf as Hf. congruence.
Qed.

(** X22: in build mode [get_standard] names Verilog files by their
    suffix whatever the standard; for any other file it wraps the
    standard of the FileList in braces when that is a string, and raises
    [TypeError] when it is not (a standard decoded as a number). *)
Theorem build_standard_cases (path : Path) (fl : FileList.t) :
  (str_in (path_suffix path) [".svh"; ".vh"] = true ->
   VivadoUtil.get_standard path fl false = Ok "{Verilog Header}") /\
  (str_in (path_suffix path) [".svh"; ".vh"] = false ->
   str_in (path_suffix path) [".v"; ".sv"] = true ->
   VivadoUtil.get_standard path fl false = Ok "{Verilog}") /\
  (str_in (path_suffix path) [".svh"; ".vh"; ".v"; ".sv"] = false ->
   (forall t, FileList.standard fl = PStr t ->
      VivadoUtil.get_standard path fl false = Ok ("{" ++ t ++ "}")%string) /\
   ((forall t, FileList.standard fl <> PStr t) ->
      VivadoUtil.get_standard path fl false = Err TypeError)).
Proof.
  unfold VivadoUtil.get_standard, VivadoUtil.get_build_standard, str_in.
  cbn [existsb].
  destruct (String.eqb (path_suffix path) ".svh");
    destruct (String.eqb (path_suffix path) ".vh");
    destruct (String.eqb (path_suffix path) ".v");
    destruct (String.eqb (path_suffix path) ".sv");
    cbn [orb VivadoUtil.braces];
    (split; [intros H; try discriminate H; reflexivity |]);
    (split; [intros H1 H2; try discriminate H1; try discriminate H2;
             reflexivity |]);
    intros H; try discriminate H.
  split.
  - intros t ->. reflexivity.
  - intros Hne. destruct (FileList.standard fl); try reflexivity.
    exfalso. apply (Hne s). reflexivity.
Qed.

Lemma build_standard_cases_witness :
  VivadoUtil.get_standard (parse_path "/work/blk/src/dsn/a.vhd")
    (FileList.mk "dsn" (PList [PStr "a.vhd"]) (PInt 2008)) false
    = Err TypeError /\
  VivadoUtil.get_standard (parse_path "/work/blk/src/dsn/regs.sv")
    (FileList.mk "dsn" (PList [PStr "regs.sv"]) (PInt 2008)) false
    = Ok "{Verilog}".
Proof.
  split.
  - apply (proj2 (proj2 (build_standard_cases
                           (parse_path "/work/blk/src/dsn/a.vhd")
                           (FileList.mk "dsn" (PList [PStr "a.vhd"])
                              (PInt 2008))))).
    + reflexivity.
    + intros t. discriminate.
  - apply (proj1 (proj2 (build_standard_cases
                           (parse_path "/work/blk/src/dsn/regs.sv")
                           (FileList.mk "dsn" (PList [PStr "regs.sv"])
                              (PInt 2008)))));
      reflexivity.
Defined.

(** ** The preferred simulator and the block filter *)

Lemma first_supported_Some (supported : pyval) (s : string) :
  forall order,
  Manifest.first_supported order supported = Ok (Some s) ->
  In s order /\ py_contains s supported = Ok true.
Proof.
  induction order as [| sim rest IH]; simpl; intros H; [discriminate H |].
  destruct (py_contains sim supported) as [[|] | e] eqn:Hc; simpl in H.
  - injection H as <-. auto.
  - destruct (IH H) as [Hin Hp]. auto.
  - discriminate H.
Qed.

(** X23: a simulator that [get_preferred_simulator] returns for a
    manifest is one of ghdl, qsim, msim, msim_free, xsim, and selecting
    it never makes [add_files_from] skip that manifest's block. *)
Theorem preferred_simulator_accepted (m : Manifest.t) (s : string) :
  Manifest.get_preferred_simulator m = Ok (Some s) ->
  In s ["ghdl"; "qsim"; "msim"; "msim_free"; "xsim"] /\
  VunitHelper.skips_block (Some s) m = Ok false.
Proof.
  unfold Manifest.get_preferred_simulator. intros H.
  destruct (@first_supported_Some _ _ _ H) as [Hin Hc].
  split; [exact Hin |].
  unfold VunitHelper.skips_block. rewrite Hc. reflexivity.
Qed.

Lemma preferred_simulator_accepted_witness :
  Manifest.get_preferred_simulator ex_manifest_repeat = Ok (Some "msim") /\
  VunitHelper.skips_block (Some "msim") ex_manifest_repeat = Ok false /\
  VunitHelper.skips_block (Some "ghdl") ex_manifest_repeat = Ok true.
Proof.
  split; [reflexivity |]. split; [| reflexivity].
  apply (preferred_simulator_accepted ex_manifest_repeat (s := "msim")).
  reflexivity.
Defined.
